(** * The V-Network manual verification workflow

    A shallow embedding of [backend/server.js] (the Express routes, the two
    Mongoose schemas and the multer upload middleware) and of the upload
    widget of [tasks.js], with the properties of the workflow stated over it.

    Collections are lists in insertion order, the unique indexes declared by
    the schemas are enforced on insertion, and every reading of [Date.now()]
    and [Math.random()] is an explicit input of the request that performs
    it. *)

From stdpp Require Import gmap strings list sorting pretty.
From Stdlib Require Import ZArith Ascii.

Local Open Scope Z_scope.

(** ** Strings as JavaScript uses them here *)

Module Js.

(** [/needle/.test(hay)] for a literal pattern: the pattern occurs
    somewhere in the subject. *)
Fixpoint includes (needle hay : string) : bool :=
  String.prefix needle hay ||
  match hay with
  | EmptyString => false
  | String _ rest => includes needle rest
  end.

Definition lower_ascii (c : ascii) : ascii :=
  let n := nat_of_ascii c in
  if ((65 <=? n) && (n <=? 90))%nat then ascii_of_nat (n + 32) else c.

Definition upper_ascii (c : ascii) : ascii :=
  let n := nat_of_ascii c in
  if ((97 <=? n) && (n <=? 122))%nat then ascii_of_nat (n - 32) else c.

Fixpoint map_string (f : ascii → ascii) (s : string) : string :=
  match s with
  | EmptyString => EmptyString
  | String c rest => String (f c) (map_string f rest)
  end.

Definition toLowerCase : string → string := map_string lower_ascii.
Definition toUpperCase : string → string := map_string upper_ascii.

(** The names a plain object [{}] inherits from [Object.prototype]; a read
    of one of them on an object without such an own property yields the
    inherited (truthy) value, whose [submittedAt] is [undefined]. *)
Definition object_prototype_keys : list string :=
  [ "constructor"; "__defineGetter__"; "__defineSetter__"; "hasOwnProperty";
    "__lookupGetter__"; "__lookupSetter__"; "isPrototypeOf";
    "propertyIsEnumerable"; "toString"; "valueOf"; "__proto__";
    "toLocaleString" ].

Definition inherited (key : string) : bool :=
  bool_decide (key ∈ object_prototype_keys).

End Js.

(** ** [path.extname] *)

Module Path.

Definition slash : ascii := "/"%char.
Definition dot : ascii := "."%char.

Fixpoint drop_slashes (cs : list ascii) : list ascii :=
  match cs with
  | c :: rest => if Ascii.eqb c slash then drop_slashes rest else cs
  | [] => []
  end.

Fixpoint until_slash (cs : list ascii) : list ascii :=
  match cs with
  | c :: rest => if Ascii.eqb c slash then [] else c :: until_slash rest
  | [] => []
  end.

(** Splits the reversed last component at its first dot (the last dot of
    the component): the reversed extension, dot included, and what precedes
    the dot. *)
Fixpoint split_dot (cs : list ascii) : option (list ascii * list ascii) :=
  match cs with
  | [] => None
  | c :: rest =>
      if Ascii.eqb c dot then Some ([c], rest)
      else match split_dot rest with
           | Some (ext, pre) => Some (c :: ext, pre)
           | None => None
           end
  end.

(** The extension of the last component of a path: from its last dot to its
    end, and empty when the component has no dot, starts at that dot, or
    is [..]. *)
Definition extname (p : string) : string :=
  let comp := until_slash (drop_slashes (reverse (String.list_ascii_of_string p))) in
  match split_dot comp with
  | None => ""
  | Some (ext, pre) =>
      if bool_decide (pre = []) || bool_decide (comp = [dot; dot]) then ""
      else String.string_of_list_ascii (reverse ext)
  end.

End Path.

(** ** The record store: schemas and collections *)

Inductive Status := pending | verified | rejected.

Global Instance Status_eq_dec : EqDecision Status.
Proof. solve_decision. Defined.

(** The [enum] validator of [verificationSchema.status]. *)
Definition status_of_string (s : string) : option Status :=
  if String.eqb s "pending" then Some pending
  else if String.eqb s "verified" then Some verified
  else if String.eqb s "rejected" then Some rejected
  else None.

Record Verification := mkVerification {
  verificationId : string;
  userAddress : string;
  task : string;
  screenshotPath : string;
  status : Status;
  reviewedBy : option string;
  reviewNotes : option string;
  submittedAt : Z;
  reviewedAt : option Z
}.

Record TasksCompleted := mkTasks {
  twitter : bool;
  facebook : bool;
  instagram : bool;
  youtube : bool;
  telegram : bool
}.

Record DailyClaim := mkClaim { date : Z; amount : Z }.

Record User := mkUser {
  u_userAddress : string;
  referralCode : option string;
  isActive : bool;
  registrationDate : Z;
  tasksCompleted : TasksCompleted;
  dailyClaims : list DailyClaim
}.

(** The defaults [userSchema] gives to [tasksCompleted]. *)
Definition no_tasks : TasksCompleted := mkTasks false false false false false.

(** The paths below [tasksCompleted] that [userSchema] declares. *)
Definition schema_tasks : list string :=
  ["twitter"; "facebook"; "instagram"; "youtube"; "telegram"].

(** [tasksCompleted[t]] as stored: only the five declared paths exist. *)
Definition get_task (t : string) (tc : TasksCompleted) : option bool :=
  if String.eqb t "twitter" then Some (twitter tc)
  else if String.eqb t "facebook" then Some (facebook tc)
  else if String.eqb t "instagram" then Some (instagram tc)
  else if String.eqb t "youtube" then Some (youtube tc)
  else if String.eqb t "telegram" then Some (telegram tc)
  else None.

(** What [{ $set: { [`tasksCompleted.${t}`]: b } }] writes to a document
    when the update goes through: a declared leaf gets the value, and a
    path that the strict schema drops from the update writes nothing.  A
    path below a declared leaf is not dropped; whether the database takes
    it is [Mongo.update_refused] and [Mongo.upsert_refused]. *)
Definition set_task (t : string) (b : bool) (tc : TasksCompleted) : TasksCompleted :=
  if String.eqb t "twitter" then
    mkTasks b (facebook tc) (instagram tc) (youtube tc) (telegram tc)
  else if String.eqb t "facebook" then
    mkTasks (twitter tc) b (instagram tc) (youtube tc) (telegram tc)
  else if String.eqb t "instagram" then
    mkTasks (twitter tc) (facebook tc) b (youtube tc) (telegram tc)
  else if String.eqb t "youtube" then
    mkTasks (twitter tc) (facebook tc) (instagram tc) b (telegram tc)
  else if String.eqb t "telegram" then
    mkTasks (twitter tc) (facebook tc) (instagram tc) (youtube tc) b
  else tc.

Definition user_set_task (t : string) (b : bool) (u : User) : User :=
  mkUser (u_userAddress u) (referralCode u) (isActive u) (registrationDate u)
         (set_task t b (tasksCompleted u)) (dailyClaims u).

(** The path [tasksCompleted.<t>] lies below a leaf that [userSchema]
    declares ([twitter.x]): Mongoose finds the Boolean of the leaf for it,
    keeps it in the update and hands it to the database. *)
Definition below_declared_leaf (t : string) : bool :=
  existsb (λ leaf, String.prefix (leaf +:+ ".") t) schema_tasks.

Fixpoint ends_with_dot (t : string) : bool :=
  match t with
  | EmptyString => false
  | String c EmptyString => Ascii.eqb c "."%char
  | String _ rest => ends_with_dot rest
  end.

(** The path has an empty component ([twitter.], [twitter..x]), which the
    database refuses in every update. *)
Definition has_empty_component (t : string) : bool :=
  ends_with_dot t || Js.includes ".." t.

Record Store := mkStore {
  Verifications : list Verification;
  Users : list User
}.

Definition empty_store : Store := mkStore [] [].

Module Mongo.

(** [Verification.findOne({ verificationId })]. *)
Definition findOne_verification (id : string) (vs : list Verification)
  : option Verification :=
  List.find (λ v, String.eqb (verificationId v) id) vs.

(** [User.findOne({ userAddress })]. *)
Definition findOne_user (addr : string) (us : list User) : option User :=
  List.find (λ u, String.eqb (u_userAddress u) addr) us.

(** [save()] of a new Verification: the unique index on [verificationId]
    refuses a duplicate. *)
Definition insert_verification (v : Verification) (vs : list Verification)
  : option (list Verification) :=
  match findOne_verification (verificationId v) vs with
  | Some _ => None
  | None => Some (vs ++ [v])
  end.

(** [save()] of a new User: the unique index on [userAddress] refuses a
    duplicate. *)
Definition insert_user (u : User) (us : list User) : option (list User) :=
  match findOne_user (u_userAddress u) us with
  | Some _ => None
  | None => Some (us ++ [u])
  end.

(** [save()] of the document that [findOne({ verificationId })] returned:
    the first document with that identifier is replaced. *)
Fixpoint replace_verification (id : string) (v' : Verification)
    (vs : list Verification) : list Verification :=
  match vs with
  | [] => []
  | v :: rest =>
      if String.eqb (verificationId v) id then v' :: rest
      else v :: replace_verification id v' rest
  end.

(** [User.findOneAndUpdate({ userAddress }, { $set: ... })] without
    [upsert]: the first match is updated, no match changes nothing. *)
Fixpoint update_user (addr : string) (f : User → User) (us : list User)
  : list User :=
  match us with
  | [] => []
  | u :: rest =>
      if String.eqb (u_userAddress u) addr then f u :: rest
      else u :: update_user addr f rest
  end.

(** The same with [upsert: true]: without a match a document is inserted
    from the filter and the update; what they leave out reads as the schema
    default. *)
Definition upsert_user (addr : string) (now : Z) (f : User → User)
    (us : list User) : list User :=
  match findOne_user addr us with
  | Some _ => update_user addr f us
  | None => us ++ [f (mkUser addr None false now no_tasks [])]
  end.

(** The database refuses the [$set] of [tasksCompleted.<t>], for a path
    that Mongoose hands to it: on the document that the filter matched a
    Boolean is stored at the declared leaf, and no field can be created in
    it; a path with an empty component does not parse, match or no
    match. *)
Definition update_refused (t : string) (found : option User) : bool :=
  match found with
  | Some _ => below_declared_leaf t
  | None => below_declared_leaf t && has_empty_component t
  end.

(** The same with [upsert: true]: without a match the path is used to
    build the inserted document, which fails when it has an empty
    component.  A document inserted for a path below a leaf holds an
    object at the leaf, which [TasksCompleted] cannot hold: the record of
    the model keeps the default of the leaf, and a later update below the
    leaf counts as refused for it, as for every other document. *)
Definition upsert_refused (t : string) (found : option User) : bool :=
  match found with
  | Some _ => below_declared_leaf t
  | None => below_declared_leaf t && has_empty_component t
  end.

(** [.sort({ submittedAt: 1 })] and [.sort({ submittedAt: -1 })]. *)
Definition ascending (v w : Verification) : Prop := submittedAt v ≤ submittedAt w.
Definition descending (v w : Verification) : Prop := submittedAt w ≤ submittedAt v.

Global Instance ascending_dec : RelDecision ascending.
Proof. intros v w. unfold ascending. apply _. Defined.
Global Instance descending_dec : RelDecision descending.
Proof. intros v w. unfold descending. apply _. Defined.

Definition sort_ascending : list Verification → list Verification :=
  merge_sort ascending.
Definition sort_descending : list Verification → list Verification :=
  merge_sort descending.

End Mongo.

(** ** The upload middleware ([multer]) *)

Record Upload := mkUpload {
  originalname : string;
  mimetype : string;
  size : Z
}.

Module Multer.

(** [limits: { fileSize: 5 * 1024 * 1024 }]. *)
Definition fileSize : Z := 5 * 1024 * 1024.

(** [/jpeg|jpg|png|gif/.test(s)]. *)
Definition filetypes (s : string) : bool :=
  Js.includes "jpeg" s || Js.includes "jpg" s ||
  Js.includes "png" s || Js.includes "gif" s.

(** [fileFilter]: [true] when the callback is given [(null, true)],
    [false] when it is given the error. *)
Definition fileFilter (file : Upload) : bool :=
  let mimetype := filetypes (mimetype file) in
  let extname := filetypes (Js.toLowerCase (Path.extname (originalname file))) in
  mimetype && extname.

(** [storage.filename] under [destination] ['uploads/']. *)
Definition stored_path (now random : Z) (file : Upload) : string :=
  "uploads/" +:+ (pretty now +:+ "-" +:+ pretty random)
    +:+ Path.extname (originalname file).

Inductive Outcome :=
| NoFile                      (* no part named [screenshot]: [req.file] is undefined *)
| Stored (path : string)      (* [req.file.path] *)
| Failed (message : string).  (* the error handed to [next] *)

(** [upload.single('screenshot')]. *)
Definition single (now random : Z) (file : option Upload) : Outcome :=
  match file with
  | None => NoFile
  | Some f =>
      if fileFilter f then
        if fileSize <? size f then Failed "File too large"
        else Stored (stored_path now random f)
      else Failed "Only image files are allowed"
  end.

End Multer.

(** ** Requests and responses *)

(** What one submission reads from the clock and the random generator. *)
Record Entropy := mkEntropy {
  filename_now : Z;          (* [Date.now()] in [storage.filename] *)
  filename_random : Z;       (* [Math.round(Math.random() * 1E9)] *)
  id_now : Z;                (* [Date.now()] in the identifier *)
  id_random : string;        (* [Math.random().toString(36).substr(2, 9)] *)
  submitted_now : Z;         (* the default of [submittedAt] *)
  registered_now : Z         (* the default of [registrationDate] on upsert *)
}.

Inductive Request :=
| SubmitVerification (e : Entropy) (screenshot : option Upload)
                     (task userAddress : string)
| VerificationStatus (userAddress : string)
| PendingVerifications
| UpdateVerification (now : Z) (verificationId status reviewNotes reviewedBy : string)
| TrackRegistration (now : Z) (userAddress referralCode : string)
| GetUser (userAddress : string).

Inductive Body :=
| Submitted (verificationId message : string)   (* [{ success: true, verificationId, message }] *)
| Failure (error : string)                      (* [{ success: false, error }] *)
| ErrorBody (error : string)                    (* [{ error }] *)
| StatusBody (result : gmap string Status)      (* task -> status *)
| VerificationsBody (docs : list Verification)
| SuccessMessage (message : string)             (* [{ success: true, message }] *)
| Success                                       (* [{ success: true }] *)
| UserBody (user : User)
| ErrorPage (message : string).                 (* the default error handler of Express *)

Record Response := mkResponse { code : Z; body : Body }.

(** [res.json(b)]. *)
Definition json (b : Body) : Response := mkResponse 200 b.

(** The messages of the errors the store throws, abbreviated. *)
Definition duplicate_key : string := "E11000 duplicate key error".
Definition invalid_enum : string := "Validation failed: status is not a valid enum value".
Definition cannot_create_field : string := "Cannot create field in element".
Definition empty_field_name : string := "The update path contains an empty field name".

(** The error with which the database refuses the path
    [tasksCompleted.<t>]: a path with an empty component does not parse;
    any other refused path fails at the Boolean of the leaf. *)
Definition refusal (t : string) : string :=
  if has_empty_component t then empty_field_name else cannot_create_field.

Module Server.

(** ['VER' + Date.now() + Math.random().toString(36).substr(2, 9).toUpperCase()]. *)
Definition new_verificationId (e : Entropy) : string :=
  "VER" +:+ pretty (id_now e) +:+ Js.toUpperCase (id_random e).

(** [app.post('/api/submit-verification', upload.single('screenshot'), ...)].
    An error of the middleware goes to [next]; the application registers
    no error-handling middleware and the [try]/[catch] of the route is never
    entered, so the default handler of Express answers with status 500.
    The route awaits [verification.save()] and then the upsert of the user:
    when the upsert throws, the [catch] answers 500 and the Verification
    that was saved stays. *)
Definition submit_verification (e : Entropy) (file : option Upload)
    (task userAddress : string) (st : Store) : Response * Store :=
  match Multer.single (filename_now e) (filename_random e) file with
  | Multer.Failed message => (mkResponse 500 (ErrorPage message), st)
  | Multer.NoFile => (mkResponse 400 (Failure "No file uploaded"), st)
  | Multer.Stored path =>
      let verificationId := new_verificationId e in
      let verification :=
        mkVerification verificationId userAddress task path pending
                       None None (submitted_now e) None in
      match Mongo.insert_verification verification (Verifications st) with
      | None => (mkResponse 500 (Failure duplicate_key), st)
      | Some vs =>
          if Mongo.upsert_refused task (Mongo.findOne_user userAddress (Users st))
          then (mkResponse 500 (Failure (refusal task)), mkStore vs (Users st))
          else
            let us := Mongo.upsert_user userAddress (registered_now e)
                        (user_set_task task false) (Users st) in
            (json (Submitted verificationId "Verification submitted successfully"),
             mkStore vs us)
      end
  end.

(** One step of the [forEach] that keeps the latest document per task in
    the object [statusMap], whose own properties are the finite map.  Under
    an inherited name [!statusMap[v.task]] is [false] and
    [v.submittedAt > undefined] is [false], so nothing is stored. *)
Definition keep_latest (statusMap : gmap string Verification) (v : Verification)
  : gmap string Verification :=
  match statusMap !! task v with
  | Some w =>
      if submittedAt w <? submittedAt v then <[task v := v]> statusMap
      else statusMap
  | None =>
      if Js.inherited (task v) then statusMap
      else <[task v := v]> statusMap
  end.

Definition latest_per_task (verifications : list Verification)
  : gmap string Verification :=
  foldl keep_latest ∅ verifications.

(** [Verification.find({ userAddress })]. *)
Definition find_by_user (addr : string) (vs : list Verification)
  : list Verification :=
  filter (λ v, userAddress v = addr) vs.

(** [Verification.find({ status: 'pending' })]. *)
Definition find_pending (vs : list Verification) : list Verification :=
  filter (λ v, status v = pending) vs.

(** The body of [app.get('/api/verification-status/:userAddress')]. *)
Definition status_result (userAddress : string) (st : Store) : gmap string Status :=
  let verifications :=
    Mongo.sort_descending (find_by_user userAddress (Verifications st)) in
  status <$> latest_per_task verifications.

Definition verification_status (userAddress : string) (st : Store)
  : Response * Store :=
  (json (StatusBody (status_result userAddress st)), st).

(** The body of [app.get('/api/admin/pending-verifications')]. *)
Definition pendingVerifications (st : Store) : list Verification :=
  Mongo.sort_ascending (find_pending (Verifications st)).

Definition pending_verifications (st : Store) : Response * Store :=
  (json (VerificationsBody (pendingVerifications st)), st).

(** The assignments to the fetched document before it is saved. *)
Definition reviewed (v : Verification) (s : Status) (notes by_ : string) (now : Z)
  : Verification :=
  mkVerification (verificationId v) (userAddress v) (task v) (screenshotPath v)
                 s (Some by_) (Some notes) (submittedAt v) (Some now).

(** [app.post('/api/admin/update-verification')].  [save()] validates the
    assigned status against the enum and throws otherwise, which the
    [catch] answers with status 500.  The update of the user is awaited
    after [verification.save()]: when it throws, the [catch] answers 500
    and the record stays as it was saved, with the new status and
    [reviewedAt]. *)
Definition update_verification (now : Z)
    (verificationId status reviewNotes reviewedBy : string) (st : Store)
  : Response * Store :=
  match Mongo.findOne_verification verificationId (Verifications st) with
  | None => (mkResponse 404 (ErrorBody "Verification not found"), st)
  | Some verification =>
      match status_of_string status with
      | None => (mkResponse 500 (ErrorBody invalid_enum), st)
      | Some s =>
          let vs := Mongo.replace_verification verificationId
                      (reviewed verification s reviewNotes reviewedBy now)
                      (Verifications st) in
          if String.eqb status "verified" then
            if Mongo.update_refused (task verification)
                 (Mongo.findOne_user (userAddress verification) (Users st))
            then (mkResponse 500 (ErrorBody (refusal (task verification))),
                  mkStore vs (Users st))
            else
              (json (SuccessMessage "Verification updated successfully"),
               mkStore vs
                 (Mongo.update_user (userAddress verification)
                    (user_set_task (task verification) true) (Users st)))
          else
            (json (SuccessMessage "Verification updated successfully"),
             mkStore vs (Users st))
      end
  end.

(** [app.post('/api/track-registration')]. *)
Definition track_registration (now : Z) (userAddress referralCode : string)
    (st : Store) : Response * Store :=
  let user := mkUser userAddress (Some referralCode) true now no_tasks [] in
  match Mongo.insert_user user (Users st) with
  | None => (mkResponse 500 (ErrorBody duplicate_key), st)
  | Some us => (json Success, mkStore (Verifications st) us)
  end.

(** [app.get('/api/user/:userAddress')]. *)
Definition get_user (userAddress : string) (st : Store) : Response * Store :=
  match Mongo.findOne_user userAddress (Users st) with
  | None => (mkResponse 404 (ErrorBody "User not found"), st)
  | Some user => (json (UserBody user), st)
  end.

Definition handle (req : Request) (st : Store) : Response * Store :=
  match req with
  | SubmitVerification e file task userAddress =>
      submit_verification e file task userAddress st
  | VerificationStatus userAddress => verification_status userAddress st
  | PendingVerifications => pending_verifications st
  | UpdateVerification now id status notes by_ =>
      update_verification now id status notes by_ st
  | TrackRegistration now userAddress referralCode =>
      track_registration now userAddress referralCode st
  | GetUser userAddress => get_user userAddress st
  end.

(** A sequence of requests served one after the other: the responses in
    order, and the final store. *)
Fixpoint run (reqs : list Request) (st : Store) : list Response * Store :=
  match reqs with
  | [] => ([], st)
  | req :: rest =>
      let '(resp, st1) := handle req st in
      let '(resps, st2) := run rest st1 in
      (resp :: resps, st2)
  end.

(** The stores the service can be in, starting from the empty one. *)
Inductive reachable : Store → Prop :=
| reachable_empty : reachable empty_store
| reachable_step req st :
    reachable st → reachable (handle req st).2.

(** The identifier a response hands out, if it is that of a successful
    submission. *)
Definition issued_id (r : Response) : option string :=
  match body r with
  | Submitted id _ => Some id
  | _ => None
  end.

(** [tasksCompleted[t]] of the user with this address, as
    [GET /api/user/:userAddress] shows it. *)
Definition task_completed (addr t : string) (st : Store) : option bool :=
  match Mongo.findOne_user addr (Users st) with
  | Some u => get_task t (tasksCompleted u)
  | None => None
  end.

End Server.

(** ** The upload widget ([tasks.js]) *)

Module Widget.

(** A [File] as the browser hands it over. *)
Record File := mkFile { name : string; type : string; file_size : Z }.

Inductive Display := none | block.

(** The part of the document the widget reads and writes. *)
Record Dom := mkDom {
  previewContainer_display : Display;
  upload_placeholder_display : Display;
  submitVerification_disabled : bool;
  imagePreview_src : string;
  screenshotUpload_value : string
}.

(** The options given to [Swal.fire]. *)
Record Alert := mkAlert { icon : string; title : string; text : string }.

(** [resetUploadArea]. *)
Definition resetUploadArea (d : Dom) : Dom :=
  mkDom none block true (imagePreview_src d) "".

(** [file.type.match('image.*')]: the string becomes the regular
    expression [/image.*/], which is not anchored. *)
Definition type_matches (t : string) : bool := Js.includes "image" t.

Definition max_size : Z := 5 * 1024 * 1024.

(** What a call of [handleFiles] does before it returns. *)
Inductive Handled :=
| Ignored                 (* [files.length === 0] *)
| Refused (a : Alert)     (* [Swal.fire] and return *)
| Reading (f : File).     (* [reader.readAsDataURL(file)] with [onload] set *)

(** [handleFiles]. *)
Definition handleFiles (files : list File) : Handled :=
  match files with
  | [] => Ignored
  | file :: _ =>
      if negb (type_matches (type file)) then
        Refused (mkAlert "error" "Invalid File"
                         "Please upload an image file (JPG, PNG, GIF)")
      else if max_size <? file_size file then
        Refused (mkAlert "error" "File Too Large" "Maximum file size is 5MB")
      else Reading file
  end.

(** [reader.onload], with [e.target.result] the data URL of the file. *)
Definition onload (result : string) (d : Dom) : Dom :=
  mkDom block none false result (screenshotUpload_value d).

(** A file chosen in the widget, up to the completion of the read: the
    document afterwards and the alert shown, if any. *)
Definition choose (files : list File) (result : string) (d : Dom)
  : Dom * option Alert :=
  match handleFiles files with
  | Ignored => (d, None)
  | Refused a => (d, Some a)
  | Reading _ => (onload result d, None)
  end.

(** The MIME type starts with [image/]. *)
Definition image_prefix (t : string) : bool := String.prefix "image/" t.

End Widget.

(** ** Vocabulary of the properties *)

(** The identifiers handed out by a sequence of responses, in order. *)
Definition issued_ids (resps : list Response) : list string :=
  omap Server.issued_id resps.

(** A request that is not a review putting a record (back) to [pending]. *)
Definition not_review_to_pending (req : Request) : Prop :=
  match req with
  | UpdateVerification _ _ status _ _ => status ≠ "pending"
  | _ => True
  end.

(** [reviewedAt] is null exactly while the status is [pending]. *)
Definition reviewedAt_consistent (v : Verification) : Prop :=
  status v = pending ↔ reviewedAt v = None.

(** The identifiers of a collection of verifications. *)
Definition ids (vs : list Verification) : list string := verificationId <$> vs.

(** What every reachable store satisfies: identifiers are unique, and every
    verification whose task path is not below a declared leaf belongs to a
    user that has a record. *)
Record well_formed (st : Store) : Prop := mkWf {
  wf_ids : NoDup (ids (Verifications st));
  wf_users : ∀ v, v ∈ Verifications st → below_declared_leaf (task v) = false →
             is_Some (Mongo.findOne_user (userAddress v) (Users st))
}.

(** [o] is what the object [statusMap] holds under the key [t] once the
    documents [l] have been visited: nothing under an inherited name, and
    otherwise a document of [l] for task [t] whose [submittedAt] no other
    document of [l] for that task exceeds, if there is any. *)
Definition latest_of (l : list Verification) (t : string)
    (o : option Verification) : Prop :=
  match o with
  | Some w =>
      Js.inherited t = false ∧ w ∈ l ∧ task w = t ∧
      ∀ v, v ∈ l → task v = t → submittedAt v ≤ submittedAt w
  | None =>
      Js.inherited t = false → ∀ v, v ∈ l → task v ≠ t
  end.

(** ** Sample requests *)

Definition sample_entropy : Entropy := mkEntropy 1000 42 1000 "k3x9zq1ab" 1001 1002.
Definition later_entropy : Entropy := mkEntropy 5000 77 5000 "p0q8r7s6t" 5001 5002.
Definition sample_png : option Upload := Some (mkUpload "shot.png" "image/png" 2048).

(** A first submission by [0xABC] for the twitter task; it is given the
    identifier [VER1000K3X9ZQ1AB]. *)
Definition first_submit : Request :=
  SubmitVerification sample_entropy sample_png "twitter" "0xABC".

(** A later submission by the same user for the same task, with the
    identifier [VER5000P0Q8R7S6T]. *)
Definition second_submit : Request :=
  SubmitVerification later_entropy sample_png "twitter" "0xABC".

(** Uploads and files that the validations are meant to turn away. *)
Definition pdf_upload : Upload := mkUpload "proof.pdf" "application/pdf" 1000.
Definition huge_png_upload : Upload := mkUpload "shot.png" "image/png" (6 * 1024 * 1024).
Definition disk_image : Widget.File :=
  Widget.mkFile "installer.dmg" "application/x-apple-diskimage" 1024.

(** The widget as [openVerificationModal] leaves it. *)
Definition fresh_widget : Widget.Dom :=
  Widget.resetUploadArea (Widget.mkDom Widget.none Widget.block true "" "").

(** ** Vocabulary of the further properties *)

(** What a Verification keeps for life: everything but the review. *)
Definition submission (v : Verification) : string * string * string * string * Z :=
  (verificationId v, userAddress v, task v, screenshotPath v, submittedAt v).

(** The addresses of a collection of users. *)
Definition addresses (us : list User) : list string := u_userAddress <$> us.

(** What a User record keeps for life, whether it was saved by a
    registration or inserted by an upsert. *)
Definition registration (u : User) : string * option string * bool * list DailyClaim :=
  (u_userAddress u, referralCode u, isActive u, dailyClaims u).

(** ** The page around the upload widget ([tasks.js]) *)

Module Client.

(** What ends up as the text of an element: a string, or the string form
    of the value that every object inherits under a key. *)
Inductive Text :=
| Plain (s : string)
| InheritedValue (key : string).

(** The element with id [`${task}Status`]. *)
Record StatusElement := mkStatusElement {
  className : string;
  textContent : Text
}.

(** An element that carries an [onclick] attribute. *)
Record Control := mkControl {
  onclick : string;
  disabled : bool;
  control_text : string;
  classList : list string
}.

(** The state that the functions of [tasks.js] read and write.  The
    elements are taken to be separate: none contains another. *)
Record Page := mkPage {
  upload : Widget.Dom;
  files : list Widget.File;                       (* [screenshotUpload.files] *)
  currentVerificationTask : option string;        (* [null] or the task *)
  modalTitle : Text;
  verificationModal_display : Widget.Display;
  body_no_scroll : bool;                          (* ['no-scroll'] in [body.classList] *)
  statusElements : gmap string StatusElement;     (* by element id *)
  controls : list Control;
  userAddress : option string                     (* the global, when set *)
}.

(** What a function shows to the user. *)
Inductive Notice :=
| WindowAlert (message : string)                  (* [alert(...)] *)
| Fired (a : Widget.Alert)                        (* [Swal.fire] with an icon *)
| Loading                                         (* the "Submitting" dialog *)
| Succeeded (task verificationId : string).       (* the success dialog *)

(** [obj[key] || fallback] for an object literal whose own properties are
    the pairs [table], all with non-empty strings. *)
Definition lookup_or (table : list (string * string)) (key fallback : string) : Text :=
  match List.find (λ kv, String.eqb kv.1 key) table with
  | Some kv => Plain kv.2
  | None => if Js.inherited key then InheritedValue key else Plain fallback
  end.

Definition taskTitles : list (string * string) :=
  [ ("twitter", "Twitter Follow Verification");
    ("facebook", "Facebook Like Verification");
    ("instagram", "Instagram Follow Verification");
    ("youtube", "YouTube Subscribe Verification");
    ("telegram", "Telegram Join Verification") ].

Definition statusText : list (string * string) :=
  [ ("pending", "⏳ Pending Verification");
    ("verified", "✅ Verified");
    ("rejected", "❌ Rejected - Please try again") ].

(** [resetUploadArea]: setting the value of the file input to [''] empties
    its list of files. *)
Definition resetUploadArea (p : Page) : Page :=
  mkPage (Widget.resetUploadArea (upload p)) [] (currentVerificationTask p)
         (modalTitle p) (verificationModal_display p) (body_no_scroll p)
         (statusElements p) (controls p) (userAddress p).

(** [openVerificationModal]. *)
Definition openVerificationModal (taskName : string) (p : Page) : Page :=
  resetUploadArea
    (mkPage (upload p) (files p) (Some taskName)
            (lookup_or taskTitles taskName "Upload Verification Proof")
            Widget.block true (statusElements p) (controls p) (userAddress p)).

(** [closeModal]. *)
Definition closeModal (p : Page) : Page :=
  resetUploadArea
    (mkPage (upload p) (files p) None (modalTitle p)
            Widget.none false (statusElements p) (controls p) (userAddress p)).

(** [removeImage]. *)
Definition removeImage (p : Page) : Page := resetUploadArea p.

Definition with_upload (d : Widget.Dom) (p : Page) : Page :=
  mkPage d (files p) (currentVerificationTask p) (modalTitle p)
         (verificationModal_display p) (body_no_scroll p)
         (statusElements p) (controls p) (userAddress p).

(** The listener of [drop] on the drop area: [handleFiles(dt.files)], up
    to the completion of the read.  The file input is not touched. *)
Definition drop (dropped : list Widget.File) (result : string) (p : Page)
  : Page * option Widget.Alert :=
  let '(d, a) := Widget.choose dropped result (upload p) in
  (with_upload d p, a).

(** The value that the browser gives a file input that holds files. *)
Definition fakepath (chosen : list Widget.File) : string :=
  match chosen with
  | [] => ""
  | f :: _ => "C:\fakepath\" +:+ Widget.name f
  end.

(** The listener of [change] on the file input, after the browser has put
    the chosen files into the input: [handleFiles(this.files)]. *)
Definition change (chosen : list Widget.File) (result : string) (p : Page)
  : Page * option Widget.Alert :=
  let d0 := upload p in
  let d1 := Widget.mkDom (Widget.previewContainer_display d0)
              (Widget.upload_placeholder_display d0)
              (Widget.submitVerification_disabled d0)
              (Widget.imagePreview_src d0) (fakepath chosen) in
  let '(d, a) := Widget.choose chosen result d1 in
  (mkPage d chosen (currentVerificationTask p) (modalTitle p)
          (verificationModal_display p) (body_no_scroll p)
          (statusElements p) (controls p) (userAddress p), a).

(** The form that [submitVerification] posts. *)
Record Submission := mkSubmission {
  screenshot : Widget.File;
  task : string;
  address : option string;       (* the global [userAddress], when set *)
  timestamp : Z
}.

(** [submitVerification] up to the call of [fetch]: what is shown, and the
    form that is posted, if any. *)
Definition submitVerification (now : Z) (p : Page) : Notice * option Submission :=
  match currentVerificationTask p with
  | None => (WindowAlert "No task selected", None)
  | Some t =>
      if String.eqb t "" then (WindowAlert "No task selected", None)
      else match files p with
           | [] => (Fired (Widget.mkAlert "error" "No File Selected"
                             "Please upload a screenshot first"), None)
           | f :: _ => (Loading, Some (mkSubmission f t (userAddress p) now))
           end
  end.

(** What comes back to [submitVerification]: a JSON body with a true
    [success], a JSON body without (with its [error], empty when there is
    none), or an exception of [fetch] or [response.json()] with its
    message. *)
Inductive Reply :=
| Accepted (verificationId : string)
| Declined (error : string)
| Broken (message : string).


(** [s || fallback] for strings. *)
Definition or_else (s fallback : string) : string :=
  if String.eqb s "" then fallback else s.

(** [`${currentVerificationTask}`]. *)
Definition task_text (p : Page) : string :=
  match currentVerificationTask p with
  | Some t => t
  | None => "null"
  end.

Section Selectors.

(** [document.querySelectorAll(`[onclick*="${task}"]`)]: for each task
    the test that the selector performs on the [onclick] attribute of an
    element, or nothing when the selector is not valid and the call
    throws. *)
Variable matching : string → option (string → bool).

Definition verify_control (c : Control) : Control :=
  mkControl (onclick c) true "Verified"
            (if bool_decide ("verified" ∈ classList c) then classList c
             else classList c ++ ["verified"]).

(** [updateTaskStatus]: the page afterwards, and whether the call threw. *)
Definition updateTaskStatus (task status : string) (p : Page) : Page * bool :=
  let id := task +:+ "Status" in
  match statusElements p !! id with
  | None => (p, false)
  | Some _ =>
      let element :=
        mkStatusElement ("status " +:+ status) (lookup_or statusText status status) in
      let shown (cs : list Control) :=
        mkPage (upload p) (files p) (currentVerificationTask p) (modalTitle p)
               (verificationModal_display p) (body_no_scroll p)
               (<[id := element]> (statusElements p)) cs (userAddress p) in
      if String.eqb status "verified" then
        match matching task with
        | None => (shown (controls p), true)
        | Some test =>
            (shown ((λ c, if test (onclick c) then verify_control c else c)
                      <$> controls p), false)
        end
      else (shown (controls p), false)
  end.

(** [submitVerification] from the answer of [fetch] on. *)
Definition submitVerification_then (r : Reply) (p : Page) : Notice * Page :=
  match r with
  | Accepted id =>
      (Succeeded (task_text p) id,
       closeModal (updateTaskStatus (task_text p) "pending" p).1)
  | Declined error =>
      (Fired (Widget.mkAlert "error" "Submission Failed"
                (or_else error "Submission failed")), p)
  | Broken message =>
      (Fired (Widget.mkAlert "error" "Submission Failed"
                (or_else message "Please try again later")), p)
  end.

(** [checkVerificationStatus] up to the call of [fetch]: the address whose
    statuses are asked for, if any. *)
Definition checkVerificationStatus (p : Page) : option string :=
  match userAddress p with
  | Some a => if String.eqb a "" then None else Some a
  | None => None
  end.

(** [checkVerificationStatus] from the parsed answer on: the loop over
    [Object.entries(statuses)], which an exception ends. *)
Fixpoint checkVerificationStatus_then (entries : list (string * string)) (p : Page)
  : Page :=
  match entries with
  | [] => p
  | (task, status) :: rest =>
      let '(p1, threw) := updateTaskStatus task status p in
      if threw then p1 else checkVerificationStatus_then rest p1
  end.

End Selectors.

(** The test of a selector whose task needs no escaping: the attribute
    contains the task, which is not empty. *)
Definition contains (task : string) : option (string → bool) :=
  Some (λ attribute, negb (String.eqb task "") && Js.includes task attribute).

End Client.

(** In the order of the page, each control of [cs'] is the control of
    [cs] at its place with the same [onclick], and disabled if that one
    was. *)
Definition never_enabled (cs cs' : list Client.Control) : Prop :=
  Forall2 (λ c c', Client.onclick c' = Client.onclick c ∧
                   (Client.disabled c = true → Client.disabled c' = true)) cs cs'.

(** What the poll leaves alone: everything but status elements and
    controls. *)
Definition modal_state (p : Client.Page) :=
  (Client.upload p, Client.files p, Client.currentVerificationTask p,
   Client.modalTitle p, Client.verificationModal_display p,
   Client.body_no_scroll p, Client.userAddress p).

(** A page with the status elements and the buttons of two tasks, and the
    answer of a poll. *)
Definition sample_page : Client.Page :=
  Client.mkPage fresh_widget [] None (Client.Plain "") Widget.none false
    {[ "twitterStatus" := Client.mkStatusElement "status" (Client.Plain "");
       "youtubeStatus" := Client.mkStatusElement "status" (Client.Plain "") ]}
    [ Client.mkControl "openVerificationModal('twitter')" false "Verify" [];
      Client.mkControl "openVerificationModal('youtube')" false "Verify" [] ]
    (Some "0xABC").

Definition sample_statuses : list (string * string) :=
  [ ("twitter", "verified"); ("youtube", "rejected") ].



(** A request that is not a submission for a path below a declared leaf
    of [tasksCompleted]. *)
Definition off_declared_leaves (req : Request) : bool :=
  match req with
  | SubmitVerification _ _ task _ => negb (below_declared_leaf task)
  | _ => true
  end.

(** The path below [tasksCompleted] that the request hands to
    [User.findOneAndUpdate], if it gets that far: the task of the form for
    a submission, the task of the record for a review. *)
Definition updated_path (req : Request) (st : Store) : option string :=
  match req with
  | SubmitVerification _ _ task _ => Some task
  | UpdateVerification _ id _ _ _ =>
      task <$> Mongo.findOne_verification id (Verifications st)
  | _ => None
  end.

(** * Properties *)

(** ** The store operations *)

Section StoreLemmas.

Implicit Types (vs : list Verification) (us : list User).
Implicit Types (v w : Verification) (u : User) (id addr t : string).

Lemma findOne_verification_Some id vs v :
  Mongo.findOne_verification id vs = Some v → v ∈ vs ∧ verificationId v = id.
Proof.
  unfold Mongo.findOne_verification. intros H.
  apply find_some in H as [Hin Heq].
  split; [by apply list_elem_of_In | by apply String.eqb_eq].
Qed.

Lemma findOne_verification_None id vs :
  Mongo.findOne_verification id vs = None ↔ id ∉ ids vs.
Proof.
  unfold Mongo.findOne_verification, ids. induction vs as [|v vs IH]; simpl.
  - split; [intros _; apply not_elem_of_nil | done].
  - rewrite not_elem_of_cons. destruct (String.eqb_spec (verificationId v) id).
    + split; [done | intros [? _]; congruence].
    + rewrite IH. split; [by split | by intros [_ ?]].
Qed.

Lemma findOne_verification_is_Some id vs v :
  v ∈ vs → verificationId v = id → is_Some (Mongo.findOne_verification id vs).
Proof.
  intros Hin Hid. destruct (Mongo.findOne_verification id vs) eqn:E; [eauto|].
  apply findOne_verification_None in E. exfalso. apply E.
  unfold ids. apply list_elem_of_fmap. eauto.
Qed.

Lemma ids_replace id v' vs :
  verificationId v' = id → ids (Mongo.replace_verification id v' vs) = ids vs.
Proof.
  intros Hid. unfold ids. induction vs as [|v vs IH]; simpl; [done|].
  destruct (String.eqb_spec (verificationId v) id); csimpl; congruence.
Qed.

Lemma elem_of_replace id v' vs w :
  w ∈ Mongo.replace_verification id v' vs → w = v' ∨ (w ∈ vs ∧ verificationId w ≠ id) ∨
    (w ∈ vs ∧ ¬ NoDup (ids vs)).
Proof.
  induction vs as [|v vs IH]; simpl; [by intros ?%elem_of_nil|].
  destruct (String.eqb_spec (verificationId v) id) as [Heq|Hne].
  - intros [->|Hin]%elem_of_cons; [by left|].
    destruct (decide (verificationId w = id)) as [Hw|Hw].
    + right; right. split; [by right|]. intros Hnd. apply NoDup_cons in Hnd as [Hnotin _].
      apply Hnotin. unfold ids. apply list_elem_of_fmap. exists w. split; [congruence|done].
    + right; left. split; [by right|done].
  - intros [->|Hin]%elem_of_cons.
    + right; left. split; [by left|done].
    + destruct (IH Hin) as [?|[[? ?]|[? Hnd]]]; [by left| |].
      * right; left. split; [by right|done].
      * right; right. split; [by right|]. by intros [_ ?]%NoDup_cons.
Qed.

Lemma replace_found id v v' vs :
  Mongo.findOne_verification id vs = Some v → verificationId v' = id →
  Mongo.findOne_verification id (Mongo.replace_verification id v' vs) = Some v' ∧
  v' ∈ Mongo.replace_verification id v' vs.
Proof.
  unfold Mongo.findOne_verification. intros Hf Hid.
  induction vs as [|x vs IH]; simpl in *; [done|].
  destruct (String.eqb_spec (verificationId x) id) as [Heq|Hne]; simpl.
  - subst id. rewrite String.eqb_refl. split; [done | by left].
  - destruct (String.eqb_spec (verificationId x) id); [done|].
    destruct (IH Hf) as [? ?]. split; [done | by right].
Qed.

Lemma replace_Forall (P : Verification → Prop) id v' vs :
  Forall P vs → P v' → Forall P (Mongo.replace_verification id v' vs).
Proof.
  intros Hvs Hv'. induction Hvs as [|x vs Hx Hvs IH]; simpl; [done|].
  destruct (String.eqb (verificationId x) id); by constructor.
Qed.

Lemma findOne_user_Some addr us u :
  Mongo.findOne_user addr us = Some u → u ∈ us ∧ u_userAddress u = addr.
Proof.
  unfold Mongo.findOne_user. intros H. apply find_some in H as [Hin Heq].
  split; [by apply list_elem_of_In | by apply String.eqb_eq].
Qed.

Lemma findOne_user_app addr us us' :
  Mongo.findOne_user addr (us ++ us') =
  match Mongo.findOne_user addr us with
  | Some u => Some u
  | None => Mongo.findOne_user addr us'
  end.
Proof.
  unfold Mongo.findOne_user. induction us as [|u us IH]; simpl; [done|].
  by destruct (String.eqb (u_userAddress u) addr).
Qed.

(** An update by [$set] on a task path keeps the address of the user. *)
Lemma findOne_user_update addr addr' t b us :
  Mongo.findOne_user addr (Mongo.update_user addr' (user_set_task t b) us) =
  if decide (addr = addr')
  then user_set_task t b <$> Mongo.findOne_user addr us
  else Mongo.findOne_user addr us.
Proof.
  unfold Mongo.findOne_user. induction us as [|u us IH]; simpl.
  - by case_decide.
  - destruct (String.eqb_spec (u_userAddress u) addr') as [Heq|Hne]; simpl.
    + case_decide as Hd.
      * subst. by rewrite String.eqb_refl.
      * destruct (String.eqb_spec (u_userAddress u) addr); [congruence|done].
    + destruct (String.eqb_spec (u_userAddress u) addr) as [Heq'|Hne'].
      * case_decide; [congruence|done].
      * apply IH.
Qed.



Local Ltac case_eqb x :=
  match goal with
  | |- context [String.eqb x ?s] =>
      let E := fresh "E" in
      destruct (String.eqb x s) eqn:E;
      [apply String.eqb_eq in E | apply String.eqb_neq in E]
  end.

Lemma get_set_task_eq t b tc :
  get_task t (set_task t b tc) = (λ _, b) <$> get_task t tc.
Proof.
  unfold get_task, set_task.
  repeat (case_eqb t; [reflexivity|]). reflexivity.
Qed.

Lemma get_set_task_ne t t' b tc :
  t ≠ t' → get_task t (set_task t' b tc) = get_task t tc.
Proof.
  intros Hne. unfold set_task.
  repeat (case_eqb t';
    [unfold get_task;
     repeat (case_eqb t; [first [reflexivity | exfalso; apply Hne; etrans; [eassumption | by symmetry]]|]);
     reflexivity|]).
  reflexivity.
Qed.

Lemma get_set_task t t' b tc :
  get_task t (set_task t' b tc) =
  if decide (t = t') then (λ _, b) <$> get_task t tc else get_task t tc.
Proof.
  case_decide as Hd; [subst; apply get_set_task_eq | by apply get_set_task_ne].
Qed.

Lemma get_task_schema t tc : is_Some (get_task t tc) ↔ t ∈ schema_tasks.
Proof.
  unfold get_task, schema_tasks.
  repeat (case_eqb t;
          [split; [intros _|by eauto]; rewrite !elem_of_cons; tauto |]).
  split; [by intros [? ?]|].
  rewrite !elem_of_cons, elem_of_nil. tauto.
Qed.
End StoreLemmas.

(** ** The pending queue, unknown identifiers, registration *)

Global Instance ascending_total : Total Mongo.ascending.
Proof. intros v w. unfold Mongo.ascending. lia. Qed.

Global Instance ascending_trans : Transitive Mongo.ascending.
Proof. intros u v w. unfold Mongo.ascending. lia. Qed.

Global Instance descending_total : Total Mongo.descending.
Proof. intros v w. unfold Mongo.descending. lia. Qed.

(** C8. In every state, ListPending answers with exactly the verification
    records whose status is pending (each as often as it is stored, and no
    record of another status), ordered by ascending [submittedAt], and
    leaves the store as it is. *)
Theorem C8_list_pending (st : Store) :
  ∃ docs,
    Server.handle PendingVerifications st = (json (VerificationsBody docs), st) ∧
    (∀ v, v ∈ docs ↔ v ∈ Verifications st ∧ status v = pending) ∧
    docs ≡ₚ filter (λ v, status v = pending) (Verifications st) ∧
    StronglySorted (λ v w, submittedAt v ≤ submittedAt w) docs.
Proof.
  exists (Server.pendingVerifications st). split; [reflexivity|].
  unfold Server.pendingVerifications, Mongo.sort_ascending, Server.find_pending.
  split; [|split].
  - intros v. rewrite merge_sort_Permutation, list_elem_of_filter. tauto.
  - apply merge_sort_Permutation.
  - apply (StronglySorted_merge_sort Mongo.ascending).
Qed.

(** C7. A Review whose [verificationId] references no existing record is
    answered with HTTP 404 (not found) and changes no Verification and no
    User record. *)
Theorem C7_review_unknown_id (now : Z) (id status notes by_ : string) (st : Store) :
  (∀ v, v ∈ Verifications st → verificationId v ≠ id) →
  Server.handle (UpdateVerification now id status notes by_) st =
    (mkResponse 404 (ErrorBody "Verification not found"), st).
Proof.
  intros Hnone. simpl. unfold Server.update_verification.
  destruct (Mongo.findOne_verification id (Verifications st)) as [v|] eqn:E; [|done].
  apply findOne_verification_Some in E as [Hin Hid]. by destruct (Hnone v Hin).
Qed.

Lemma C7_review_unknown_id_witness :
  let st := (Server.run [first_submit] empty_store).2 in
  Server.handle (UpdateVerification 2000 "VER0" "verified" "fine" "admin1") st =
    (mkResponse 404 (ErrorBody "Verification not found"), st).
Proof.
  intros st. apply C7_review_unknown_id.
  intros v Hin. vm_compute in Hin.
  apply list_elem_of_singleton in Hin. subst v. vm_compute. discriminate.
Defined.

(** C9 as stated fails: a second registration of an address is refused by
    the unique index, the call is answered with HTTP 500, not with success,
    and no record is created. *)
Lemma C9_second_registration_fails :
  let st := (Server.run [TrackRegistration 10 "0xABC" "REF7"] empty_store).2 in
  Server.handle (TrackRegistration 20 "0xABC" "REF7") st =
    (mkResponse 500 (ErrorBody duplicate_key), st).
Proof. reflexivity. Qed.

(** C9, amended. For every [userAddress] without a User record and every
    [referralCode], TrackRegistration creates a User record with
    [isActive = true] and answers success; when a record with that address
    exists already, the unique index refuses the insertion, the answer is
    HTTP 500 and the store is unchanged. *)
Theorem C9_track_registration (now : Z) (addr code_ : string) (st : Store) :
  (Mongo.findOne_user addr (Users st) = None →
     ∃ st', Server.handle (TrackRegistration now addr code_) st = (json Success, st') ∧
            Verifications st' = Verifications st ∧
            Users st' = Users st ++ [mkUser addr (Some code_) true now no_tasks []] ∧
            ∃ u, Mongo.findOne_user addr (Users st') = Some u ∧ isActive u = true) ∧
  (is_Some (Mongo.findOne_user addr (Users st)) →
     Server.handle (TrackRegistration now addr code_) st =
       (mkResponse 500 (ErrorBody duplicate_key), st)).
Proof.
  simpl. unfold Server.track_registration, Mongo.insert_user. simpl. split.
  - intros Hnone. rewrite Hnone. eexists. repeat split; simpl.
    exists (mkUser addr (Some code_) true now no_tasks []). split; [|done].
    rewrite findOne_user_app, Hnone. unfold Mongo.findOne_user. simpl.
    by rewrite String.eqb_refl.
  - intros [u Hu]. by rewrite Hu.
Qed.

Lemma C9_track_registration_witness :
  (∃ st', Server.handle (TrackRegistration 10 "0xABC" "REF7") empty_store = (json Success, st') ∧
          ∃ u, Mongo.findOne_user "0xABC" (Users st') = Some u ∧ isActive u = true) ∧
  (let st := (Server.run [first_submit] empty_store).2 in
   Server.handle (TrackRegistration 10 "0xABC" "REF7") st =
     (mkResponse 500 (ErrorBody duplicate_key), st)).
Proof.
  split.
  - destruct (C9_track_registration 10 "0xABC" "REF7" empty_store) as [Hnew _].
    destruct Hnew as (st' & Hh & _ & _ & Hu); [reflexivity|].
    exists st'. split; [exact Hh | exact Hu].
  - intros st.
    destruct (C9_track_registration 10 "0xABC" "REF7" st) as [_ Hold].
    apply Hold. vm_compute. eauto.
Defined.

(** ** Steps of the service and what they preserve *)

Section Steps.

Implicit Types (st : Store) (req : Request) (reqs : list Request).

Lemma run_cons req reqs st :
  Server.run (req :: reqs) st =
  ((Server.handle req st).1 :: (Server.run reqs (Server.handle req st).2).1,
   (Server.run reqs (Server.handle req st).2).2).
Proof.
  simpl. destruct (Server.handle req st) as [resp st1]. simpl.
  by destruct (Server.run reqs st1).
Qed.

Lemma run_reachable reqs st :
  Server.reachable st → Server.reachable (Server.run reqs st).2.
Proof.
  revert st. induction reqs as [|req reqs IH]; intros st Hst; [done|].
  rewrite run_cons. simpl. apply IH. by constructor.
Qed.

(** The Verifications after a submission and after a review, whatever
    becomes of the write to the user. *)
Lemma submit_verifications e file t a st :
  Verifications (Server.submit_verification e file t a st).2 =
  match Multer.single (filename_now e) (filename_random e) file with
  | Multer.Stored path =>
      match Mongo.insert_verification
              (mkVerification (Server.new_verificationId e) a t path pending
                 None None (submitted_now e) None) (Verifications st) with
      | Some vs => vs
      | None => Verifications st
      end
  | _ => Verifications st
  end.
Proof.
  unfold Server.submit_verification.
  destruct (Multer.single _ _ _); try done.
  destruct (Mongo.insert_verification _ _); [|done].
  by destruct (Mongo.upsert_refused _ _).
Qed.

Lemma update_verifications now id s notes by_ st :
  Verifications (Server.update_verification now id s notes by_ st).2 =
  match Mongo.findOne_verification id (Verifications st), status_of_string s with
  | Some v, Some x =>
      Mongo.replace_verification id (Server.reviewed v x notes by_ now) (Verifications st)
  | _, _ => Verifications st
  end.
Proof.
  unfold Server.update_verification.
  destruct (Mongo.findOne_verification _ _); [|done].
  destruct (status_of_string s); [|done].
  destruct (String.eqb s "verified"); [|done].
  by destruct (Mongo.update_refused _ _).
Qed.

(** A step stores at most one new identifier, at the end; the identifier
    it issues is the one it stores. *)
Lemma handle_ids req st :
  match Server.issued_id (Server.handle req st).1 with
  | Some id =>
      (id ∉ ids (Verifications st)) ∧
      ids (Verifications (Server.handle req st).2) = ids (Verifications st) ++ [id]
  | None =>
      ids (Verifications (Server.handle req st).2) = ids (Verifications st) ∨
      ∃ id, (id ∉ ids (Verifications st)) ∧
            ids (Verifications (Server.handle req st).2) = ids (Verifications st) ++ [id]
  end.
Proof.
  destruct req as [e file t addr|addr| |now id s notes by_|now addr r|addr]; simpl;
    try (by left).
  - unfold Server.submit_verification.
    destruct (Multer.single _ _ _); try (by left).
    unfold Mongo.insert_verification. simpl.
    destruct (Mongo.findOne_verification _ _) eqn:E; [by left|]. simpl.
    apply findOne_verification_None in E.
    destruct (Mongo.upsert_refused _ _); simpl.
    + right. eexists. split; [exact E|]. unfold ids. by rewrite fmap_app.
    + split; [done|]. unfold ids. by rewrite fmap_app.
  - unfold Server.update_verification.
    destruct (Mongo.findOne_verification _ _) as [v|] eqn:E; [|by left].
    apply findOne_verification_Some in E as [_ E].
    destruct (status_of_string s); [|by left]. simpl.
    destruct (String.eqb s "verified"); [destruct (Mongo.update_refused _ _)|];
      simpl; left; by apply ids_replace.
  - unfold Server.track_registration.
    destruct (Mongo.insert_user _ _); by left.
  - unfold Server.get_user. destruct (Mongo.findOne_user _ _); by left.
Qed.

Lemma handle_ids_NoDup req st :
  NoDup (ids (Verifications st)) →
  NoDup (ids (Verifications (Server.handle req st).2)).
Proof.
  intros Hids. pose proof (handle_ids req st) as H.
  assert (∀ id, id ∉ ids (Verifications st) →
                NoDup (ids (Verifications st) ++ [id])) as Hsnoc.
  { intros id Hnew. apply NoDup_app. split_and!; [done| |apply NoDup_singleton].
    by intros x Hx ->%list_elem_of_singleton. }
  destruct (Server.issued_id (Server.handle req st).1) as [id|].
  - destruct H as [Hnew ->]. by apply Hsnoc.
  - destruct H as [->|(id & Hnew & ->)]; [done | by apply Hsnoc].
Qed.

(** The identifiers that a sequence of requests adds to the store, at its
    end, include the identifiers it issues, in their order. *)
Lemma run_ids reqs st :
  ∃ k, ids (Verifications (Server.run reqs st).2) = ids (Verifications st) ++ k ∧
       issued_ids (Server.run reqs st).1 `sublist_of` k.
Proof.
  revert st. induction reqs as [|req reqs IH]; intros st.
  - exists []. simpl. by rewrite app_nil_r.
  - rewrite run_cons. simpl.
    destruct (IH (Server.handle req st).2) as (k & -> & Hk).
    unfold issued_ids. simpl. pose proof (handle_ids req st) as H.
    destruct (Server.issued_id (Server.handle req st).1) as [id|].
    + destruct H as [_ ->]. exists (id :: k). rewrite <- app_assoc.
      split; [done | by apply sublist_skip].
    + destruct H as [->|(id & _ & ->)].
      * by exists k.
      * exists (id :: k). rewrite <- app_assoc. split; [done | by apply sublist_cons].
Qed.

(** A user that has a record keeps one. *)
Lemma handle_user_stays req st addr :
  is_Some (Mongo.findOne_user addr (Users st)) →
  is_Some (Mongo.findOne_user addr (Users (Server.handle req st).2)).
Proof.
  intros Hu.
  destruct req as [e file t a|a| |now id s notes by_|now a r|a]; simpl; try done.
  - unfold Server.submit_verification.
    destruct (Multer.single _ _ _); try done.
    destruct (Mongo.insert_verification _ _); [|done].
    destruct (Mongo.upsert_refused _ _); simpl; [done|].
    unfold Mongo.upsert_user.
    destruct (Mongo.findOne_user a (Users st)) eqn:Ea.
    + rewrite findOne_user_update. case_decide; [|done].
      destruct Hu as [u' ->]. by eexists.
    + rewrite findOne_user_app. by destruct Hu as [u' ->].
  - unfold Server.update_verification.
    destruct (Mongo.findOne_verification _ _) as [v|]; [|done].
    destruct (status_of_string s); [|done]. simpl.
    destruct (String.eqb s "verified"); [|done].
    destruct (Mongo.update_refused _ _); simpl; [done|].
    rewrite findOne_user_update. case_decide; [|done].
    destruct Hu as [u' ->]. by eexists.
  - unfold Server.track_registration, Mongo.insert_user. simpl.
    destruct (Mongo.findOne_user a (Users st)); [done|]. simpl.
    rewrite findOne_user_app. by destruct Hu as [u' ->].
  - unfold Server.get_user. by destruct (Mongo.findOne_user a (Users st)).
Qed.

Lemma upsert_user_is_Some addr now t b us :
  is_Some (Mongo.findOne_user addr
             (Mongo.upsert_user addr now (user_set_task t b) us)).
Proof.
  unfold Mongo.upsert_user.
  destruct (Mongo.findOne_user addr us) as [u|] eqn:E.
  - rewrite findOne_user_update, decide_True, E by done. by eexists.
  - rewrite findOne_user_app, E. unfold Mongo.findOne_user. simpl.
    rewrite String.eqb_refl. by eexists.
Qed.

Lemma upsert_refused_below t found :
  below_declared_leaf t = false → Mongo.upsert_refused t found = false.
Proof. intros H. unfold Mongo.upsert_refused. rewrite H. by destruct found. Qed.

Lemma update_refused_below t found :
  below_declared_leaf t = false → Mongo.update_refused t found = false.
Proof. intros H. unfold Mongo.update_refused. rewrite H. by destruct found. Qed.

(** A record of the store after a step whose task path is not below a
    declared leaf has the user and task of a record that was there before,
    or a user that has a record now. *)
Lemma handle_verification_user req st v :
  v ∈ Verifications (Server.handle req st).2 →
  below_declared_leaf (task v) = false →
  (∃ w, w ∈ Verifications st ∧ userAddress w = userAddress v ∧ task w = task v) ∨
  is_Some (Mongo.findOne_user (userAddress v) (Users (Server.handle req st).2)).
Proof.
  destruct req as [e file t a|a| |now id s notes by_|now a r|a]; simpl;
    try (intros Hv _; left; by exists v).
  - unfold Server.submit_verification.
    destruct (Multer.single _ _ _); try (intros Hv _; left; by exists v).
    unfold Mongo.insert_verification. simpl.
    destruct (Mongo.findOne_verification _ _); [intros Hv _; left; by exists v|].
    destruct (Mongo.upsert_refused _ _) eqn:Er; simpl.
    + intros [Hv| ->%list_elem_of_singleton]%elem_of_app Hb; [left; by exists v|].
      simpl in Hb. by rewrite (upsert_refused_below _ _ Hb) in Er.
    + intros [Hv| ->%list_elem_of_singleton]%elem_of_app _; [left; by exists v|].
      right. simpl. apply upsert_user_is_Some.
  - unfold Server.update_verification.
    destruct (Mongo.findOne_verification _ _) as [x|] eqn:E;
      [|intros Hv _; left; by exists v].
    destruct (status_of_string s) as [y|]; [|intros Hv _; left; by exists v].
    assert (v ∈ Mongo.replace_verification id (Server.reviewed x y notes by_ now)
                  (Verifications st) →
            ∃ w, w ∈ Verifications st ∧ userAddress w = userAddress v ∧ task w = task v)
      as Hrep.
    { intros Hv. apply elem_of_replace in Hv as [->|[[Hv _]|[Hv _]]].
      - exists x. split; [|done]. by apply findOne_verification_Some in E as [? _].
      - by exists v.
      - by exists v. }
    destruct (String.eqb s "verified"); [destruct (Mongo.update_refused _ _)|];
      simpl; intros Hv _; left; by apply Hrep.
  - unfold Server.track_registration.
    destruct (Mongo.insert_user _ _); intros Hv _; left; by exists v.
  - unfold Server.get_user.
    destruct (Mongo.findOne_user _ _); intros Hv _; left; by exists v.
Qed.

Lemma handle_well_formed req st :
  well_formed st → well_formed (Server.handle req st).2.
Proof.
  intros [Hids Husers]. split; [by apply handle_ids_NoDup|].
  intros v Hv Hb.
  apply handle_verification_user in Hv as [(w & Hw & <- & Ht)|Hv]; [|done|done].
  apply handle_user_stays. apply Husers; [done | by rewrite Ht].
Qed.

Lemma reachable_well_formed st : Server.reachable st → well_formed st.
Proof.
  induction 1 as [|req st _ IH].
  - split; [apply NoDup_nil_2 | by intros v ?%elem_of_nil].
  - by apply handle_well_formed.
Qed.

End Steps.

(** C6. The identifiers returned by the successful submissions of any
    sequence of requests served by a store that starts empty are pairwise
    distinct: none repeats an identifier returned before. *)
Theorem C6_issued_ids_distinct (reqs : list Request) :
  NoDup (issued_ids (Server.run reqs empty_store).1).
Proof.
  assert (well_formed (Server.run reqs empty_store).2) as [Hids _].
  { apply reachable_well_formed, run_reachable. constructor. }
  destruct (run_ids reqs empty_store) as (k & Hk & Hsub).
  rewrite Hk in Hids. simpl in Hids. by apply (sublist_NoDup _ k).
Qed.

(** A submission whose identifier collides with a stored one is refused by
    the unique index and hands out nothing. *)
Example colliding_submission_refused :
  (Server.run [first_submit; first_submit] empty_store).1 =
  [ json (Submitted "VER1000K3X9ZQ1AB" "Verification submitted successfully");
    mkResponse 500 (Failure duplicate_key) ].
Proof. reflexivity. Qed.

(** ** [reviewedAt] and the status *)

Lemma status_of_string_pending (s : string) :
  status_of_string s = Some pending → s = "pending".
Proof.
  unfold status_of_string.
  destruct (String.eqb_spec s "pending"); [done|].
  destruct (String.eqb s "verified"); [done|].
  by destruct (String.eqb s "rejected").
Qed.

Lemma handle_reviewedAt_consistent (req : Request) (st : Store) :
  not_review_to_pending req →
  Forall reviewedAt_consistent (Verifications st) →
  Forall reviewedAt_consistent (Verifications (Server.handle req st).2).
Proof.
  intros Hreq Hst.
  destruct req as [e file t a|a| |now id s notes by_|now a r|a]; simpl in *; try done.
  - rewrite submit_verifications.
    destruct (Multer.single _ _ _); try done.
    unfold Mongo.insert_verification. simpl.
    destruct (Mongo.findOne_verification _ _); [done|]. simpl.
    apply Forall_app. split; [done|]. by repeat constructor.
  - rewrite update_verifications.
    destruct (Mongo.findOne_verification _ _) as [v|]; [|done].
    destruct (status_of_string s) as [x|] eqn:Es; [|done]. simpl.
    apply replace_Forall; [done|].
    unfold reviewedAt_consistent. simpl. split; [|done].
    intros ->. by apply status_of_string_pending in Es.
  - unfold Server.track_registration. by destruct (Mongo.insert_user _ _).
  - unfold Server.get_user. by destruct (Mongo.findOne_user _ _).
Qed.

(** The endpoint takes more than the Review operation offers, whose new
    status is [verified] or [rejected]: a request that names [pending] is
    accepted by the enum of the schema and stamps [reviewedAt] on a record
    whose status is [pending].  The invariant below is about the sequences
    without such a request. *)
Example review_to_pending_stamps_reviewedAt :
  let st := (Server.run
               [first_submit;
                UpdateVerification 3000 "VER1000K3X9ZQ1AB" "pending" "look again" "admin1"]
               empty_store).2 in
  ∃ v, v ∈ Verifications st ∧ status v = pending ∧ reviewedAt v = Some 3000 ∧
       ¬ reviewedAt_consistent v.
Proof.
  eexists. split; [apply list_elem_of_here|].
  repeat split. unfold reviewedAt_consistent. simpl. intros [H _].
  by specialize (H eq_refl).
Qed.

(** C5. In every state reached from the empty store by a sequence of
    requests whose Reviews name a new status other than [pending], as
    those of the Review operation ([verified] or [rejected]) do, every
    Verification record has [reviewedAt] null exactly while its status is
    [pending]. *)
Theorem C5_reviewedAt_invariant (reqs : list Request) :
  Forall not_review_to_pending reqs →
  ∀ v, v ∈ Verifications (Server.run reqs empty_store).2 →
       (status v = pending ↔ reviewedAt v = None).
Proof.
  intros Hreqs.
  assert (∀ st, Forall reviewedAt_consistent (Verifications st) →
                Forall reviewedAt_consistent (Verifications (Server.run reqs st).2)) as H.
  { induction Hreqs as [|req reqs Hreq _ IH]; intros st Hst; [done|].
    rewrite run_cons. simpl. by apply IH, handle_reviewedAt_consistent. }
  intros v Hv. specialize (H empty_store (Forall_nil_2 _)).
  rewrite Forall_forall in H. by apply H.
Qed.

Lemma C5_reviewedAt_invariant_witness :
  let reqs := [first_submit; second_submit;
               UpdateVerification 3000 "VER1000K3X9ZQ1AB" "verified" "fine" "admin1";
               UpdateVerification 6000 "VER5000P0Q8R7S6T" "rejected" "blurred" "admin1"] in
  Forall not_review_to_pending reqs ∧
  ∀ v, v ∈ Verifications (Server.run reqs empty_store).2 →
       (status v = pending ↔ reviewedAt v = None).
Proof.
  intros reqs.
  assert (Forall not_review_to_pending reqs) as Hreqs.
  { repeat constructor; simpl; discriminate. }
  split; [exact Hreqs | exact (C5_reviewedAt_invariant reqs Hreqs)].
Defined.

(** ** Who writes [tasksCompleted] *)

Section TasksCompleted.

Implicit Types (st : Store) (us : list User) (vs : list Verification).
Implicit Types (addr a t : string).

Lemma task_completed_update addr a t t0 b vs vs' us :
  Server.task_completed addr t
    (mkStore vs' (Mongo.update_user a (user_set_task t0 b) us)) =
  if decide (addr = a ∧ t = t0)
  then (λ _, b) <$> Server.task_completed addr t (mkStore vs us)
  else Server.task_completed addr t (mkStore vs us).
Proof.
  unfold Server.task_completed. simpl. rewrite findOne_user_update.
  destruct (decide (addr = a)) as [->|Ha].
  - destruct (Mongo.findOne_user a us) as [u|]; simpl.
    + rewrite get_set_task.
      destruct (decide (t = t0)) as [->|Ht].
      * by rewrite decide_True.
      * rewrite decide_False; [done | by intros [_ ?]].
    + by case_decide.
  - rewrite decide_False; [done | by intros [? _]].
Qed.

Lemma get_task_no_tasks t b : get_task t no_tasks = Some b → b = false.
Proof.
  unfold get_task, no_tasks. simpl.
  repeat match goal with
         | |- context [String.eqb t ?s] => destruct (String.eqb t s)
         end; congruence.
Qed.

(** The entry of a user whose record is inserted with the defaults,
    possibly after a [$set] of one entry to [false]. *)
Lemma task_completed_created addr a t vs vs' us (u : User) :
  Mongo.findOne_user a us = None →
  u_userAddress u = a →
  (∀ b, get_task t (tasksCompleted u) = Some b → b = false) →
  let before := Server.task_completed addr t (mkStore vs us) in
  let after := Server.task_completed addr t (mkStore vs' (us ++ [u])) in
  after = before ∨ (addr = a ∧ before = None ∧ after = Some false).
Proof.
  intros Hnone Hu Hfalse. unfold Server.task_completed. simpl.
  rewrite findOne_user_app.
  destruct (Mongo.findOne_user addr us) as [x|] eqn:E; [by left|].
  unfold Mongo.findOne_user. simpl.
  destruct (String.eqb_spec (u_userAddress u) addr) as [Heq|Hne]; [|by left].
  destruct (get_task t (tasksCompleted u)) as [b|] eqn:Eb; [|by left].
  right. rewrite (Hfalse b eq_refl). split; [congruence|done].
Qed.

End TasksCompleted.

(** C1 as stated fails: a submission by a user whose twitter entry is
    [true] sets it back to [false], so Submit does write [tasksCompleted]
    of an existing User record. *)
Lemma C1_submit_resets_completed_task :
  let st := (Server.run
               [first_submit;
                UpdateVerification 3000 "VER1000K3X9ZQ1AB" "verified" "fine" "admin1"]
               empty_store).2 in
  is_Some (Mongo.findOne_user "0xABC" (Users st)) ∧
  Server.task_completed "0xABC" "twitter" st = Some true ∧
  Server.task_completed "0xABC" "twitter" (Server.handle second_submit st).2 = Some false.
Proof. vm_compute. eauto. Qed.

(** C1, amended. For every user and task, one request changes
    [tasksCompleted[task]] of the user in one of three ways only: a Review
    with new status [verified] of a Verification of that user and task sets
    the entry to [true]; a successful Submit by that user for that task sets
    the existing entry to [false]; and the creation of the User record (by
    the user's first Submit or registration) starts the entry at [false].
    Every other request leaves the entry as it is; in particular the entry
    becomes [true] only by the approval. *)
Theorem C1_tasksCompleted_writers (req : Request) (st : Store) (addr t : string) :
  let before := Server.task_completed addr t st in
  let after := Server.task_completed addr t (Server.handle req st).2 in
  after = before ∨
  (after = Some true ∧ is_Some before ∧
     ∃ now id notes by_ v,
       req = UpdateVerification now id "verified" notes by_ ∧
       Mongo.findOne_verification id (Verifications st) = Some v ∧
       userAddress v = addr ∧ task v = t) ∨
  (after = Some false ∧ is_Some before ∧
     ∃ e file, req = SubmitVerification e file t addr ∧
               is_Some (Server.issued_id (Server.handle req st).1)) ∨
  (after = Some false ∧ Mongo.findOne_user addr (Users st) = None ∧
     ((∃ e file t', req = SubmitVerification e file t' addr) ∨
      (∃ now code_, req = TrackRegistration now addr code_))).
Proof.
  destruct st as [vs us].
  destruct req as [e file t0 a|a| |now id s notes by_|now a r|a]; simpl;
    try (by left).
  - unfold Server.submit_verification.
    destruct (Multer.single _ _ _); try (by left).
    destruct (Mongo.insert_verification _ _) as [vs'|]; [|by left].
    destruct (Mongo.upsert_refused _ _); simpl; [by left|].
    unfold Mongo.upsert_user.
    destruct (Mongo.findOne_user a us) as [u|] eqn:Ea.
    + rewrite (task_completed_update _ _ _ _ _ vs).
      case_decide as Hd; [|by left]. destruct Hd as [-> ->].
      destruct (Server.task_completed a t0 (mkStore vs us)) as [b|] eqn:Eb; [|by left].
      right; right; left. simpl. repeat split; eauto.
    + destruct (task_completed_created addr a t vs vs' us
                  (user_set_task t0 false (mkUser a None false (registered_now e) no_tasks [])))
        as [Hsame|(-> & Hb & Ha)]; [done|done| |by left|].
      * simpl. intros b. rewrite get_set_task. case_decide.
        -- destruct (get_task t no_tasks); simpl; congruence.
        -- apply get_task_no_tasks.
      * right; right; right. split; [exact Ha|]. split; [exact Ea|]. left. eauto.
  - unfold Server.update_verification. simpl.
    destruct (Mongo.findOne_verification id vs) as [v|] eqn:Ev; [|by left].
    destruct (status_of_string s); [|by left]. simpl.
    destruct (String.eqb_spec s "verified") as [->|_]; [|by left].
    destruct (Mongo.update_refused _ _); simpl; [by left|].
    rewrite (task_completed_update _ _ _ _ _ vs).
    case_decide as Hd; [|by left]. destruct Hd as [-> ->].
    destruct (Server.task_completed (userAddress v) (task v) (mkStore vs us))
      as [b|] eqn:Eb; [|by left].
    right; left. simpl. repeat split; eauto 10.
  - unfold Server.track_registration, Mongo.insert_user. simpl.
    destruct (Mongo.findOne_user a us) eqn:Ea; simpl; [by left|].
    destruct (task_completed_created addr a t vs vs us
                (mkUser a (Some r) true now no_tasks []))
      as [Hsame|(-> & Hb & Ha)]; [done|done|apply get_task_no_tasks|by left|].
    right; right; right. split; [exact Ha|]. split; [exact Ea|]. right. eauto.
  - unfold Server.get_user. simpl. destruct (Mongo.findOne_user a us); by left.
Qed.

(** ** The latest record per task *)

Section Latest.

Implicit Types (m : gmap string Verification) (l : list Verification).
Implicit Types (v w : Verification) (t : string).

Lemma latest_of_snoc_other l t v o :
  task v ≠ t → latest_of l t o → latest_of (l ++ [v]) t o.
Proof.
  intros Hne. destruct o as [w|]; simpl.
  - intros (Hi & Hin & Ht & Hmax). repeat split; [done|set_solver|done|].
    intros x [Hx| ->%list_elem_of_singleton]%elem_of_app Hxt; [by apply Hmax|done].
  - intros Hnone Hi x [Hx| ->%list_elem_of_singleton]%elem_of_app; [by apply Hnone|done].
Qed.

Lemma keep_latest_spec m l v :
  (∀ t, latest_of l t (m !! t)) →
  ∀ t, latest_of (l ++ [v]) t (Server.keep_latest m v !! t).
Proof.
  intros Hm t.
  destruct (decide (task v = t)) as [<-|Hne].
  - unfold Server.keep_latest. pose proof (Hm (task v)) as Hv.
    destruct (m !! task v) as [w|] eqn:Ew; simpl in Hv.
    + destruct Hv as (Hi & Hin & Ht & Hmax).
      destruct (Z.ltb_spec (submittedAt w) (submittedAt v)).
      * rewrite lookup_insert_eq. simpl. repeat split; [done|set_solver|].
        intros x [Hx| ->%list_elem_of_singleton]%elem_of_app Hxt; [|lia].
        specialize (Hmax x Hx Hxt). lia.
      * rewrite Ew. simpl. repeat split; [done|set_solver|done|].
        intros x [Hx| ->%list_elem_of_singleton]%elem_of_app Hxt; [by apply Hmax|lia].
    + destruct (Js.inherited (task v)) eqn:Ei.
      * rewrite Ew. simpl. by rewrite Ei.
      * rewrite lookup_insert_eq. simpl. repeat split; [done|set_solver|].
        intros x [Hx| ->%list_elem_of_singleton]%elem_of_app Hxt; [|lia].
        by destruct (Hv eq_refl x Hx).
  - assert (Server.keep_latest m v !! t = m !! t) as ->.
    { unfold Server.keep_latest.
      destruct (m !! task v) as [w|]; [destruct (_ <? _)|destruct (Js.inherited _)];
        by rewrite ?lookup_insert_ne. }
    by apply latest_of_snoc_other.
Qed.

Lemma foldl_keep_latest_spec l2 :
  ∀ m l1, (∀ t, latest_of l1 t (m !! t)) →
          ∀ t, latest_of (l1 ++ l2) t (foldl Server.keep_latest m l2 !! t).
Proof.
  induction l2 as [|v l2 IH]; intros m l1 Hm t; simpl.
  - by rewrite app_nil_r.
  - replace (l1 ++ v :: l2) with ((l1 ++ [v]) ++ l2) by by rewrite <- app_assoc.
    apply IH. by apply keep_latest_spec.
Qed.

Lemma latest_per_task_spec l t :
  latest_of l t (Server.latest_per_task l !! t).
Proof.
  apply (foldl_keep_latest_spec l ∅ []). intros t'. rewrite lookup_empty. simpl.
  by intros _ v ?%elem_of_nil.
Qed.

End Latest.

(** What GetStatus answers for a user and a task whose name a plain object
    does not inherit: the status of a record of that user and task with the
    greatest [submittedAt], and nothing when the user has no record for the
    task. *)
Lemma status_result_spec (addr : string) (st : Store) (t : string) :
  Js.inherited t = false →
  match Server.status_result addr st !! t with
  | Some s =>
      ∃ w, w ∈ Verifications st ∧ userAddress w = addr ∧ task w = t ∧ status w = s ∧
           ∀ v, v ∈ Verifications st → userAddress v = addr → task v = t →
                submittedAt v ≤ submittedAt w
  | None => ∀ v, v ∈ Verifications st → userAddress v = addr → task v ≠ t
  end.
Proof.
  intros Hi. unfold Server.status_result. rewrite lookup_fmap.
  set (l := Mongo.sort_descending (Server.find_by_user addr (Verifications st))).
  assert (∀ v, v ∈ l ↔ v ∈ Verifications st ∧ userAddress v = addr) as Hl.
  { intros v. unfold l, Mongo.sort_descending, Server.find_by_user.
    rewrite merge_sort_Permutation, list_elem_of_filter. tauto. }
  pose proof (latest_per_task_spec l t) as H.
  destruct (Server.latest_per_task l !! t) as [w|]; simpl in *.
  - destruct H as (_ & Hin & Ht & Hmax). apply Hl in Hin as [Hin Ha].
    exists w. repeat split; [done..|].
    intros v Hv Hva Hvt. apply Hmax; [|done]. by apply Hl.
  - intros v Hv Hva. apply (H Hi). by apply Hl.
Qed.

(** Under a name that a plain object inherits, GetStatus answers nothing. *)
Lemma status_result_inherited (addr : string) (st : Store) (t : string) :
  Js.inherited t = true → Server.status_result addr st !! t = None.
Proof.
  intros Hi. unfold Server.status_result. rewrite lookup_fmap.
  set (l := Mongo.sort_descending _).
  pose proof (latest_per_task_spec l t) as H.
  destruct (Server.latest_per_task l !! t) as [w|]; [|done].
  destruct H as [H _]. congruence.
Qed.

(** C4, at an input where it fails. A user who submits for a task named
    after a property that every object inherits ([constructor]) has a
    pending Verification for it, and GetStatus answers with the empty
    mapping: the task is left out although the user has a record for it.
    The store is unchanged, as C4 says. *)
Lemma C4_inherited_task_name_omitted :
  let st := (Server.run
               [SubmitVerification sample_entropy sample_png "constructor" "0xABC"]
               empty_store).2 in
  (∃ v, v ∈ Verifications st ∧ userAddress v = "0xABC" ∧
        task v = "constructor" ∧ status v = pending) ∧
  Server.handle (VerificationStatus "0xABC") st = (json (StatusBody ∅), st).
Proof.
  split.
  - eexists. split; [apply list_elem_of_here|]. by repeat split.
  - reflexivity.
Qed.

(** ** The effect of a review *)

Lemma status_of_string_verified (s : string) :
  status_of_string s = Some verified ↔ s = "verified".
Proof.
  unfold status_of_string. split.
  - destruct (String.eqb s "pending"); [done|].
    destruct (String.eqb_spec s "verified"); [done|].
    by destruct (String.eqb s "rejected").
  - by intros ->.
Qed.

(** C2 as stated fails: after the approval of a record that is not the
    latest of its user and task, [tasksCompleted] is set but GetStatus
    still answers with the status of the later record. *)
Lemma C2_status_follows_latest_submission :
  let st := (Server.run [first_submit; second_submit] empty_store).2 in
  let st' := (Server.handle
                (UpdateVerification 6000 "VER1000K3X9ZQ1AB" "verified" "fine" "admin1")
                st).2 in
  is_Some (Mongo.findOne_verification "VER1000K3X9ZQ1AB" (Verifications st)) ∧
  Server.task_completed "0xABC" "twitter" st' = Some true ∧
  Server.status_result "0xABC" st' !! "twitter" = Some pending.
Proof. vm_compute. eauto. Qed.

Lemma schema_task_not_below_leaf (t : string) :
  t ∈ schema_tasks → below_declared_leaf t = false.
Proof.
  unfold schema_tasks. intros H.
  repeat (apply elem_of_cons in H as [->|H]; [reflexivity|]).
  by apply elem_of_nil in H.
Qed.

(** C2, amended. A Review of an existing record with a new status that the
    schema accepts leaves the record with that status, the given
    [reviewedBy] and [reviewNotes], and [reviewedAt = now], all else as it
    was; it answers with success whenever the new status is not [verified]
    or the task of the record does not lie below a declared leaf of
    [tasksCompleted].  If the new status is [verified], the entry
    [tasksCompleted[task]] of the record's user is [true] afterwards for
    each of the five tasks of the schema, and GetStatus answers [verified]
    for the task whenever the record was submitted later than every other
    record of that user and task.  If the new status is not [verified], no
    User record changes. *)
Theorem C2_review_effect (now : Z) (id newStatus notes by_ : string)
    (st : Store) (v : Verification) (s : Status) :
  Server.reachable st →
  Mongo.findOne_verification id (Verifications st) = Some v →
  status_of_string newStatus = Some s →
  ∃ resp st',
    Server.handle (UpdateVerification now id newStatus notes by_) st = (resp, st') ∧
    Mongo.findOne_verification id (Verifications st') =
      Some (mkVerification (verificationId v) (userAddress v) (task v)
              (screenshotPath v) s (Some by_) (Some notes) (submittedAt v) (Some now)) ∧
    (s ≠ verified ∨ below_declared_leaf (task v) = false →
       resp = json (SuccessMessage "Verification updated successfully")) ∧
    (s = verified → task v ∈ schema_tasks →
       Server.task_completed (userAddress v) (task v) st' = Some true) ∧
    (s = verified → Js.inherited (task v) = false →
       (∀ w, w ∈ Verifications st → verificationId w ≠ id →
             userAddress w = userAddress v → task w = task v →
             submittedAt w < submittedAt v) →
       Server.status_result (userAddress v) st' !! task v = Some verified) ∧
    (s ≠ verified → Users st' = Users st).
Proof.
  intros Hreach Hfind Hs.
  apply reachable_well_formed in Hreach as [Hids Husers].
  pose proof Hfind as [Hin Hid]%findOne_verification_Some.
  destruct (Server.handle (UpdateVerification now id newStatus notes by_) st)
    as [resp st'] eqn:Eh.
  exists resp, st'. split; [done|].
  set (v' := Server.reviewed v s notes by_ now).
  assert (Verifications st' = Mongo.replace_verification id v' (Verifications st)) as Hvs.
  { replace st' with (Server.handle (UpdateVerification now id newStatus notes by_) st).2
      by by rewrite Eh.
    simpl. by rewrite update_verifications, Hfind, Hs. }
  destruct (replace_found id v v' (Verifications st) Hfind Hid) as [Hfound Hin'].
  rewrite <- Hvs in Hfound, Hin'.
  split; [exact Hfound|].
  simpl in Eh. unfold Server.update_verification in Eh. rewrite Hfind, Hs in Eh.
  split_and!.
  - intros Hok. destruct (String.eqb_spec newStatus "verified") as [->|_].
    + destruct Hok as [Hne|Hb].
      * vm_compute in Hs. congruence.
      * rewrite (update_refused_below _ _ Hb) in Eh. by injection Eh as <- _.
    + by injection Eh as <- _.
  - intros -> Hschema. apply status_of_string_verified in Hs as ->. simpl in Eh.
    rewrite (update_refused_below _ _ (schema_task_not_below_leaf _ Hschema)) in Eh.
    injection Eh as _ <-.
    rewrite (task_completed_update _ _ _ _ _ (Verifications st)), decide_True by done.
    unfold Server.task_completed. simpl.
    destruct (Husers v Hin (schema_task_not_below_leaf _ Hschema)) as [u ->].
    by destruct (proj2 (get_task_schema (task v) (tasksCompleted u)) Hschema) as [b ->].
  - intros -> Hi Hlatest.
    pose proof (status_result_spec (userAddress v) st' (task v) Hi) as H.
    destruct (Server.status_result (userAddress v) st' !! task v) as [x|].
    + destruct H as (w & Hw & Hwa & Hwt & <- & Hmax). f_equal.
      rewrite Hvs in Hw.
      apply elem_of_replace in Hw as [->|[[Hw Hne]|[_ Hdup]]]; [done| |done].
      specialize (Hlatest w Hw Hne Hwa Hwt).
      specialize (Hmax v' Hin' eq_refl eq_refl). simpl in Hmax. lia.
    + by destruct (H v' Hin' eq_refl).
  - intros Hne. destruct (String.eqb_spec newStatus "verified") as [->|_].
    + vm_compute in Hs. congruence.
    + by injection Eh as _ <-.
Qed.

Lemma C2_review_effect_witness :
  let st := (Server.run [first_submit] empty_store).2 in
  ∃ resp st',
    Server.handle (UpdateVerification 3000 "VER1000K3X9ZQ1AB" "verified" "fine" "admin1") st =
      (resp, st') ∧
    resp = json (SuccessMessage "Verification updated successfully") ∧
    Server.task_completed "0xABC" "twitter" st' = Some true ∧
    Server.status_result "0xABC" st' !! "twitter" = Some verified.
Proof.
  intros st.
  destruct (C2_review_effect 3000 "VER1000K3X9ZQ1AB" "verified" "fine" "admin1" st
              (mkVerification "VER1000K3X9ZQ1AB" "0xABC" "twitter" "uploads/1000-42.png"
                 pending None None 1001 None) verified)
    as (resp & st' & Hh & _ & Hok & Htc & Hst & _).
  - apply (run_reachable [first_submit]). constructor.
  - reflexivity.
  - reflexivity.
  - exists resp, st'. split; [exact Hh|]. split_and!.
    + apply Hok. right. reflexivity.
    + apply Htc; [reflexivity|]. vm_compute. apply list_elem_of_here.
    + apply Hst; [reflexivity|reflexivity|].
      intros w Hw Hne. vm_compute in Hw. apply list_elem_of_singleton in Hw.
      subst w. by destruct Hne.
Defined.

(** The approval of a record whose task lies below a declared leaf: the
    record is saved as verified, the update of the user is refused, and the
    answer is the 500 of the [catch]. *)
Example approval_below_declared_leaf :
  let st := (Server.run
               [first_submit;
                SubmitVerification later_entropy sample_png "twitter.x" "0xABC"]
               empty_store).2 in
  let answer := Server.handle
                  (UpdateVerification 6000 "VER5000P0Q8R7S6T" "verified" "fine" "admin1") st in
  ids (Verifications st) = ["VER1000K3X9ZQ1AB"; "VER5000P0Q8R7S6T"] ∧
  answer.1 = mkResponse 500 (ErrorBody cannot_create_field) ∧
  status <$> Mongo.findOne_verification "VER5000P0Q8R7S6T" (Verifications answer.2) =
    Some verified ∧
  Users answer.2 = Users st.
Proof. by split_and!. Qed.

(** A submission for such a task by a user who has a record: the
    Verification is saved, the upsert is refused, and the answer is 500
    without an identifier. *)
Example submission_below_declared_leaf :
  let st := (Server.run [first_submit] empty_store).2 in
  let answer := Server.handle
                  (SubmitVerification later_entropy sample_png "twitter.x" "0xABC") st in
  answer.1 = mkResponse 500 (Failure cannot_create_field) ∧
  ids (Verifications answer.2) = ["VER1000K3X9ZQ1AB"; "VER5000P0Q8R7S6T"] ∧
  Users answer.2 = Users st.
Proof. by split_and!. Qed.

(** The entry of a task that [userSchema] does not declare is never
    stored: the approval of a record for such a task sets nothing. *)
Example approval_of_undeclared_task :
  let st := (Server.run
               [SubmitVerification sample_entropy sample_png "discord" "0xABC";
                UpdateVerification 3000 "VER1000K3X9ZQ1AB" "verified" "fine" "admin1"]
               empty_store).2 in
  Server.status_result "0xABC" st !! "discord" = Some verified ∧
  Server.task_completed "0xABC" "discord" st = None.
Proof. by split. Qed.

(** The scenario of a submission, its approval and the reads in between. *)
Example submit_review_scenario :
  (Server.run
     [first_submit;
      VerificationStatus "0xABC";
      UpdateVerification 3000 "VER1000K3X9ZQ1AB" "verified" "looks good" "admin1";
      VerificationStatus "0xABC";
      GetUser "0xABC"]
     empty_store).1 =
  [ json (Submitted "VER1000K3X9ZQ1AB" "Verification submitted successfully");
    json (StatusBody {["twitter" := pending]});
    json (SuccessMessage "Verification updated successfully");
    json (StatusBody {["twitter" := verified]});
    json (UserBody (mkUser "0xABC" None false 1002
                      (mkTasks true false false false false) [])) ].
Proof. reflexivity. Qed.

(** ** Uploads that the middleware turns away *)

(** An upload that fails the filter or exceeds the size limit never reaches
    the route: the store is left as it is and the default error handler
    answers. *)
Lemma refused_upload_creates_nothing (e : Entropy) (f : Upload)
    (t addr : string) (st : Store) :
  Multer.fileFilter f = false ∨ Multer.fileSize < size f →
  ∃ message,
    Server.handle (SubmitVerification e (Some f) t addr) st =
      (mkResponse 500 (ErrorPage message), st).
Proof.
  intros H. simpl. unfold Server.submit_verification, Multer.single.
  destruct (Multer.fileFilter f); [|by eexists].
  destruct H as [H|H]; [done|].
  destruct (Z.ltb_spec Multer.fileSize (size f)); [by eexists | lia].
Qed.

(** C3, at inputs where it fails. A PDF, and a PNG of 6 MiB, are turned
    away without a record, but the answer is HTTP 500 from the default
    error handler, where C3 says HTTP 400; only a missing file is answered
    with 400. *)
Lemma C3_refused_upload_answered_500 :
  Server.handle (SubmitVerification sample_entropy (Some pdf_upload) "twitter" "0xABC")
                empty_store =
    (mkResponse 500 (ErrorPage "Only image files are allowed"), empty_store) ∧
  Server.handle (SubmitVerification sample_entropy (Some huge_png_upload) "twitter" "0xABC")
                empty_store =
    (mkResponse 500 (ErrorPage "File too large"), empty_store) ∧
  Server.handle (SubmitVerification sample_entropy None "twitter" "0xABC") empty_store =
    (mkResponse 400 (Failure "No file uploaded"), empty_store).
Proof. by repeat split. Qed.

(** ** The upload widget *)

Section WidgetLemmas.

Import Widget.

Lemma prefix_app_l (s1 s2 t : string) :
  String.prefix (s1 +:+ s2) t = true → String.prefix s1 t = true.
Proof.
  revert t. induction s1 as [|c s1 IH]; intros t; [by destruct t|].
  destruct t as [|c' t]; simpl; [done|].
  destruct (ascii_dec c c'); [apply IH | done].
Qed.

Lemma includes_prefix (needle hay : string) :
  String.prefix needle hay = true → Js.includes needle hay = true.
Proof. intros H. destruct hay; cbn [Js.includes]; by rewrite H. Qed.

(** A type that starts with [image/] passes the test of the widget. *)
Lemma image_prefix_matches (t : string) :
  image_prefix t = true → type_matches t = true.
Proof.
  unfold image_prefix, type_matches. intros H.
  by apply includes_prefix, (prefix_app_l "image" "/").
Qed.

(** What the widget does with a chosen file: it reads the file, shows the
    preview and enables the submit button when the type contains [image]
    and the size is at most 5 MiB; otherwise it shows an alert and leaves
    the document as it is. *)
Lemma choose_spec (file : File) (rest : list File) (result : string) (d : Dom) :
  if type_matches (type file) && (file_size file <=? 5 * 1024 * 1024)
  then choose (file :: rest) result d =
         (mkDom block none false result (screenshotUpload_value d), None)
  else ∃ a, choose (file :: rest) result d = (d, Some a) ∧ icon a = "error".
Proof.
  unfold choose, handleFiles, max_size.
  destruct (type_matches (type file)); simpl; [|by eexists].
  destruct (Z.leb_spec (file_size file) (5 * 1024 * 1024)),
           (Z.ltb_spec (5 * 1024 * 1024) (file_size file)); try lia; [done|by eexists].
Qed.

End WidgetLemmas.

(** C10, at an input where it fails. A disk image of 1 KiB has a MIME
    type that does not start with [image/], yet the widget accepts it: no
    alert, the preview is shown and the submit button is enabled, where C10
    has an error and the button left disabled. *)
Lemma C10_disk_image_enables_submit :
  Widget.image_prefix (Widget.type disk_image) = false ∧
  Widget.submitVerification_disabled fresh_widget = true ∧
  Widget.choose [disk_image] "data:application/x-apple-diskimage;base64,AA==" fresh_widget =
    (Widget.mkDom Widget.block Widget.none false
       "data:application/x-apple-diskimage;base64,AA==" "", None).
Proof. by repeat split. Qed.

(** A refusal leaves the document as it is, so a button that an earlier
    file enabled stays enabled when a later file is refused. *)
Example refusal_keeps_earlier_state :
  let png := Widget.mkFile "shot.png" "image/png" 2048 in
  let txt := Widget.mkFile "notes.txt" "text/plain" 10 in
  let d := (Widget.choose [png] "data:image/png;base64,AA==" fresh_widget).1 in
  Widget.submitVerification_disabled d = false ∧
  Widget.submitVerification_disabled (Widget.choose [txt] "" d).1 = false ∧
  (Widget.choose [txt] "" d).2 =
    Some (Widget.mkAlert "error" "Invalid File"
            "Please upload an image file (JPG, PNG, GIF)").
Proof. by repeat split. Qed.

(** * Further properties of the service *)

(** ** What the collections keep *)

Section Collections.

Implicit Types (vs : list Verification) (us : list User).
Implicit Types (st : Store) (req : Request) (reqs : list Request).

Lemma findOne_user_None addr us :
  Mongo.findOne_user addr us = None ↔ addr ∉ addresses us.
Proof.
  unfold Mongo.findOne_user, addresses. induction us as [|u us IH]; simpl.
  - split; [intros _; apply not_elem_of_nil | done].
  - csimpl. rewrite not_elem_of_cons.
    destruct (String.eqb_spec (u_userAddress u) addr) as [Heq|Hne].
    + split; [done | intros [H _]; by destruct H].
    + rewrite IH. split; [intros ?; split; [by intros ->|done] | by intros [_ ?]].
Qed.

Lemma addresses_update addr t b us :
  addresses (Mongo.update_user addr (user_set_task t b) us) = addresses us.
Proof.
  unfold addresses. induction us as [|u us IH]; simpl; [done|].
  destruct (String.eqb (u_userAddress u) addr); csimpl; [done|]. by rewrite IH.
Qed.

Lemma registration_update addr t b us :
  registration <$> Mongo.update_user addr (user_set_task t b) us = registration <$> us.
Proof.
  induction us as [|u us IH]; simpl; [done|].
  destruct (String.eqb (u_userAddress u) addr); csimpl; [done|]. by rewrite IH.
Qed.

(** The users of the store after a step: those before it, with their
    registration data, and at most one more, whose address is new. *)
Lemma handle_registrations req st :
  registration <$> Users (Server.handle req st).2 = registration <$> Users st ∨
  ∃ u, registration <$> Users (Server.handle req st).2 = (registration <$> Users st) ++ [registration u] ∧
       u_userAddress u ∉ addresses (Users st).
Proof.
  destruct req as [e file t a|a| |now id s notes by_|now a r|a]; simpl; try (by left).
  - unfold Server.submit_verification.
    destruct (Multer.single _ _ _); try (by left).
    destruct (Mongo.insert_verification _ _); [|by left]. simpl.
    destruct (Mongo.upsert_refused _ _); simpl; [by left|].
    unfold Mongo.upsert_user.
    destruct (Mongo.findOne_user a (Users st)) eqn:Ea.
    + left. apply registration_update.
    + right. eexists. rewrite fmap_app. split; [reflexivity|].
      simpl. by apply findOne_user_None.
  - unfold Server.update_verification.
    destruct (Mongo.findOne_verification _ _); [|by left].
    destruct (status_of_string s); [|by left]. simpl.
    destruct (String.eqb s "verified"); [|by left].
    destruct (Mongo.update_refused _ _); simpl; [by left|].
    left. apply registration_update.
  - unfold Server.track_registration, Mongo.insert_user. simpl.
    destruct (Mongo.findOne_user a (Users st)) eqn:Ea; [by left|]. simpl.
    right. eexists. rewrite fmap_app. split; [reflexivity|].
    simpl. by apply findOne_user_None.
  - unfold Server.get_user. destruct (Mongo.findOne_user _ _); by left.
Qed.

Lemma addresses_registration us :
  addresses us = (λ r, r.1.1.1) <$> (registration <$> us).
Proof. unfold addresses. rewrite <- list_fmap_compose. done. Qed.

Lemma handle_addresses_NoDup req st :
  NoDup (addresses (Users st)) → NoDup (addresses (Users (Server.handle req st).2)).
Proof.
  intros Hnd. rewrite addresses_registration.
  destruct (handle_registrations req st) as [->|(u & -> & Hnew)].
  - by rewrite <- addresses_registration.
  - rewrite fmap_app, <- addresses_registration. simpl.
    apply NoDup_app. repeat split; [done| |apply NoDup_singleton].
    intros x Hx ->%list_elem_of_singleton. by apply Hnew.
Qed.

End Collections.

(** X1. In every store the service reaches from the empty one, no two User
    records have the same [userAddress]. *)
Theorem X1_user_addresses_unique (reqs : list Request) :
  NoDup (addresses (Users (Server.run reqs empty_store).2)).
Proof.
  assert (∀ st, NoDup (addresses (Users st)) →
                NoDup (addresses (Users (Server.run reqs st).2))) as H.
  { induction reqs as [|req reqs IH]; intros st Hst; [done|].
    rewrite run_cons. simpl. by apply IH, handle_addresses_NoDup. }
  apply H. apply NoDup_nil_2.
Qed.

Section AppendOnly.

Implicit Types (vs : list Verification) (us : list User).
Implicit Types (st : Store) (req : Request) (reqs : list Request).

Lemma submission_replace id v v' vs :
  Mongo.findOne_verification id vs = Some v →
  submission v' = submission v →
  submission <$> Mongo.replace_verification id v' vs = submission <$> vs.
Proof.
  unfold Mongo.findOne_verification. intros Hf Heq.
  induction vs as [|x vs IH]; simpl in *; [done|].
  destruct (String.eqb (verificationId x) id); csimpl.
  - injection Hf as ->. by rewrite Heq.
  - by rewrite IH.
Qed.

Lemma handle_submissions req st :
  submission <$> Verifications st `prefix_of`
  submission <$> Verifications (Server.handle req st).2.
Proof.
  destruct req as [e file t a|a| |now id s notes by_|now a r|a]; simpl; try done.
  - rewrite submit_verifications.
    destruct (Multer.single _ _ _); try done.
    unfold Mongo.insert_verification.
    destruct (Mongo.findOne_verification _ _); [done|]. simpl.
    rewrite fmap_app. by apply prefix_app_r.
  - rewrite update_verifications.
    destruct (Mongo.findOne_verification _ _) as [v|] eqn:E; [|done].
    destruct (status_of_string s); [|done]. simpl.
    by rewrite (submission_replace id v).
  - unfold Server.track_registration. by destruct (Mongo.insert_user _ _).
  - unfold Server.get_user. by destruct (Mongo.findOne_user _ _).
Qed.

End AppendOnly.

(** X2. Verification records are never deleted or reordered, and a record
    keeps its [verificationId], [userAddress], [task], [screenshotPath] and
    [submittedAt] for life: what the store holds of them before a sequence
    of requests is a prefix of what it holds afterwards. *)
Theorem X2_verifications_append_only (reqs : list Request) (st : Store) :
  submission <$> Verifications st `prefix_of`
  submission <$> Verifications (Server.run reqs st).2.
Proof.
  revert st. induction reqs as [|req reqs IH]; intros st; [done|].
  rewrite run_cons. simpl. etrans; [apply handle_submissions | apply IH].
Qed.

Lemma run_registrations (reqs : list Request) (st : Store) :
  registration <$> Users st `prefix_of`
  registration <$> Users (Server.run reqs st).2.
Proof.
  revert st. induction reqs as [|req reqs IH]; intros st; [done|].
  rewrite run_cons. simpl. etrans; [|apply IH].
  destruct (handle_registrations req st) as [->|(u & -> & _)];
    [done | by apply prefix_app_r].
Qed.

(** X3. User records are never deleted or reordered, and a record keeps
    its [userAddress], [referralCode], [isActive] and [dailyClaims] for
    life, whatever requests follow: no request rewrites them. *)
Theorem X3_users_append_only (reqs : list Request) (st : Store) :
  registration <$> Users st `prefix_of`
  registration <$> Users (Server.run reqs st).2.
Proof. apply run_registrations. Qed.

Lemma findOne_user_prefix (addr : string) (u : User) (us us' : list User) :
  Mongo.findOne_user addr us = Some u →
  registration <$> us `prefix_of` registration <$> us' →
  ∃ u', Mongo.findOne_user addr us' = Some u' ∧ registration u' = registration u.
Proof.
  unfold Mongo.findOne_user. revert us'.
  induction us as [|x us IH]; intros us' Hf Hpre; simpl in *; [done|].
  destruct us' as [|x' us']; csimpl in *.
  { by apply prefix_nil_not in Hpre. }
  apply prefix_cons_inv_1 in Hpre as Hx. apply prefix_cons_inv_2 in Hpre.
  assert (u_userAddress x' = u_userAddress x) as -> by (by injection Hx).
  destruct (String.eqb (u_userAddress x) addr).
  - injection Hf as <-. by exists x'.
  - by apply IH.
Qed.

(** X4. Once an address has a User record, GetUser answers with a record
    of the same [referralCode], [isActive] and [dailyClaims] after any
    sequence of requests: a user that the upsert of a submission created
    (inactive, without referral code) stays so, and a later registration
    cannot change it. *)
Theorem X4_get_user_keeps_registration (reqs : list Request) (st : Store)
    (addr : string) (u : User) :
  Mongo.findOne_user addr (Users st) = Some u →
  ∃ u', Server.handle (GetUser addr) (Server.run reqs st).2 =
          (json (UserBody u'), (Server.run reqs st).2) ∧
        registration u' = registration u.
Proof.
  intros Hu.
  destruct (findOne_user_prefix addr u (Users st) (Users (Server.run reqs st).2) Hu)
    as (u' & Hu' & Hreg).
  { apply run_registrations. }
  exists u'. split; [|done]. simpl. unfold Server.get_user. by rewrite Hu'.
Qed.

Lemma X4_get_user_keeps_registration_witness :
  let st := (Server.run [first_submit] empty_store).2 in
  let later := [TrackRegistration 2000 "0xABC" "REF7";
                UpdateVerification 3000 "VER1000K3X9ZQ1AB" "verified" "fine" "admin1"] in
  ∃ u', Server.handle (GetUser "0xABC") (Server.run later st).2 =
          (json (UserBody u'), (Server.run later st).2) ∧
        isActive u' = false ∧ referralCode u' = None.
Proof.
  intros st later.
  destruct (X4_get_user_keeps_registration later st "0xABC"
              (mkUser "0xABC" None false 1002 no_tasks [])) as (u' & Hget & Hreg).
  - reflexivity.
  - exists u'. split; [exact Hget|].
    unfold registration in Hreg. simpl in Hreg.
    split; [by injection Hreg | by injection Hreg].
Defined.

(** A step that is no submission below a declared leaf stores a record
    only together with handing out its identifier. *)
Lemma handle_ids_off_leaves (req : Request) (st : Store) :
  off_declared_leaves req = true →
  ids (Verifications (Server.handle req st).2) =
  ids (Verifications st) ++ issued_ids [(Server.handle req st).1].
Proof.
  intros Hoff. unfold issued_ids. simpl. pose proof (handle_ids req st) as H.
  destruct (Server.issued_id (Server.handle req st).1) as [id|] eqn:Eid.
  { by destruct H as [_ ->]. }
  simpl. rewrite app_nil_r.
  destruct req as [e file t a|a| |now id s notes by_|now a r|a]; simpl in *.
  - apply negb_true_iff in Hoff. revert Eid.
    unfold Server.submit_verification.
    destruct (Multer.single _ _ _); try done.
    destruct (Mongo.insert_verification _ _); [|done].
    by rewrite (upsert_refused_below _ _ Hoff).
  - done.
  - done.
  - rewrite update_verifications.
    destruct (Mongo.findOne_verification _ _) as [v|] eqn:E; [|done].
    destruct (status_of_string s); [|done].
    apply ids_replace. by apply findOne_verification_Some in E as [_ ?].
  - unfold Server.track_registration. by destruct (Mongo.insert_user _ _).
  - unfold Server.get_user. by destruct (Mongo.findOne_user _ _).
Qed.

Lemma run_ids_off_leaves (reqs : list Request) (st : Store) :
  forallb off_declared_leaves reqs = true →
  ids (Verifications (Server.run reqs st).2) =
  ids (Verifications st) ++ issued_ids (Server.run reqs st).1.
Proof.
  revert st. induction reqs as [|req reqs IH]; intros st Hoff.
  - simpl. by rewrite app_nil_r.
  - simpl in Hoff. apply andb_true_iff in Hoff as [Hreq Hoff].
    rewrite run_cons. simpl. rewrite (IH _ Hoff), (handle_ids_off_leaves _ _ Hreq).
    rewrite <- app_assoc. f_equal. unfold issued_ids. simpl.
    by destruct (Server.issued_id _).
Qed.

(** X5. Every identifier handed out has its Verification record: the
    identifiers of the successful submissions are, in their order, among
    the identifiers of the records of the store.  When no submission names
    a task below a declared leaf of [tasksCompleted], the store holds no
    other record: the two lists are equal. *)
Theorem X5_one_record_per_issued_id (reqs : list Request) :
  issued_ids (Server.run reqs empty_store).1 `sublist_of`
    ids (Verifications (Server.run reqs empty_store).2) ∧
  (forallb off_declared_leaves reqs = true →
   ids (Verifications (Server.run reqs empty_store).2) =
   issued_ids (Server.run reqs empty_store).1).
Proof.
  split.
  - by destruct (run_ids reqs empty_store) as (k & -> & Hk).
  - intros Hoff. by rewrite run_ids_off_leaves.
Qed.

Lemma X5_one_record_per_issued_id_witness :
  let reqs := [first_submit;
               SubmitVerification later_entropy (Some pdf_upload) "twitter" "0xABC";
               second_submit] in
  ids (Verifications (Server.run reqs empty_store).2) =
  issued_ids (Server.run reqs empty_store).1.
Proof.
  intros reqs. by apply (X5_one_record_per_issued_id reqs).
Defined.

(** X6. An identifier that a submission handed out stays known: after any
    further requests the store holds a record of it, so a Review of it is
    never answered with 404; with a status of the enum the Review succeeds
    whenever the status is not [verified] or the task of the record does
    not lie below a declared leaf of [tasksCompleted]. *)
Theorem X6_issued_id_reviewable (reqs later : list Request)
    (now : Z) (id status notes by_ : string) :
  id ∈ issued_ids (Server.run reqs empty_store).1 →
  let st := (Server.run later (Server.run reqs empty_store).2).2 in
  let answer := (Server.handle (UpdateVerification now id status notes by_) st).1 in
  ∃ v, Mongo.findOne_verification id (Verifications st) = Some v ∧
       code answer ≠ 404 ∧
       (is_Some (status_of_string status) →
        status ≠ "verified" ∨ below_declared_leaf (task v) = false →
        answer = json (SuccessMessage "Verification updated successfully")).
Proof.
  intros Hid st answer.
  assert (id ∈ ids (Verifications st)) as Hin.
  { unfold st.
    destruct (run_ids later (Server.run reqs empty_store).2) as (k & -> & _).
    apply elem_of_app. left.
    destruct (run_ids reqs empty_store) as (k0 & -> & Hk0).
    by apply (elem_of_sublist _ _ _ Hid). }
  destruct (Mongo.findOne_verification id (Verifications st)) as [v|] eqn:E.
  2:{ by apply findOne_verification_None in E. }
  exists v. split; [done|].
  unfold answer. simpl. unfold Server.update_verification. rewrite E.
  destruct (status_of_string status); simpl.
  - destruct (String.eqb_spec status "verified") as [->|Hne].
    + destruct (Mongo.update_refused _ _) eqn:Er; simpl.
      * split; [done|]. intros _ [Hs|Hb]; [done|].
        by rewrite (update_refused_below _ _ Hb) in Er.
      * split; [done | by intros _ _].
    + split; [done | by intros _ _].
  - split; [done | by intros [? ?]].
Qed.

Lemma X6_issued_id_reviewable_witness :
  let st := (Server.run [second_submit] (Server.run [first_submit] empty_store).2).2 in
  ∃ v, Mongo.findOne_verification "VER1000K3X9ZQ1AB" (Verifications st) = Some v ∧
       (Server.handle (UpdateVerification 9000 "VER1000K3X9ZQ1AB" "verified" "fine" "admin1")
          st).1 = json (SuccessMessage "Verification updated successfully").
Proof.
  intros st.
  destruct (X6_issued_id_reviewable [first_submit] [second_submit] 9000
              "VER1000K3X9ZQ1AB" "verified" "fine" "admin1") as (v & Hv & _ & Hok).
  - vm_compute. apply list_elem_of_here.
  - exists v. split; [exact Hv|]. apply Hok.
    + by eexists.
    + right. vm_compute in Hv. injection Hv as <-. reflexivity.
Defined.

(** ** Failures, the pending queue and the status of a fresh submission *)

(** X7. A request that is not answered with status 200 has changed no
    User record, and it has changed nothing at all unless it is answered
    with 500 and the path it updates lies below a declared leaf of
    [tasksCompleted]: then the Verification was saved before the update of
    the user was refused. *)
Theorem X7_failure_changes_no_user (req : Request) (st : Store) :
  code (Server.handle req st).1 = 200 ∨
  (Users (Server.handle req st).2 = Users st ∧
   ((Server.handle req st).2 = st ∨
    (code (Server.handle req st).1 = 500 ∧
     ∃ t, updated_path req st = Some t ∧ below_declared_leaf t = true))).
Proof.
  destruct req as [e file t a|a| |now id s notes by_|now a r|a]; simpl;
    try (by left).
  - unfold Server.submit_verification.
    destruct (Multer.single _ _ _); try (right; split; [done | by left]).
    destruct (Mongo.insert_verification _ _); [|right; split; [done | by left]].
    destruct (Mongo.upsert_refused _ _) eqn:Er; simpl; [|by left].
    right. split; [done|]. right. split; [done|]. exists t. split; [done|].
    destruct (below_declared_leaf t) eqn:Eb; [done|].
    by rewrite (upsert_refused_below _ _ Eb) in Er.
  - unfold Server.update_verification.
    destruct (Mongo.findOne_verification _ _) as [v|]; [|right; split; [done | by left]].
    destruct (status_of_string s); [|right; split; [done | by left]].
    destruct (String.eqb s "verified"); [|by left].
    destruct (Mongo.update_refused _ _) eqn:Er; simpl; [|by left].
    right. split; [done|]. right. split; [done|]. exists (task v). split; [done|].
    destruct (below_declared_leaf (task v)) eqn:Eb; [done|].
    by rewrite (update_refused_below _ _ Eb) in Er.
  - unfold Server.track_registration.
    destruct (Mongo.insert_user _ _); [by left | right; split; [done | by left]].
  - unfold Server.get_user.
    destruct (Mongo.findOne_user _ _); [by left | right; split; [done | by left]].
Qed.

(** What a successful submission leaves in the store. *)
Lemma submit_success (e : Entropy) (file : option Upload) (t addr : string)
    (st st' : Store) (id message : string) :
  Server.handle (SubmitVerification e file t addr) st = (json (Submitted id message), st') →
  ∃ path,
    Verifications st' =
      Verifications st ++
      [mkVerification id addr t path pending None None (submitted_now e) None] ∧
    Users st' = Mongo.upsert_user addr (registered_now e) (user_set_task t false) (Users st) ∧
    id ∉ ids (Verifications st).
Proof.
  simpl. unfold Server.submit_verification.
  destruct (Multer.single _ _ _) as [|path|]; try (intros H; discriminate H).
  unfold Mongo.insert_verification. simpl.
  destruct (Mongo.findOne_verification _ _) eqn:E; [intros H; discriminate H|].
  simpl. destruct (Mongo.upsert_refused _ _); [intros H; discriminate H|].
  intros [= <- <- <-].
  exists path. simpl. repeat split. by apply findOne_verification_None.
Qed.

(** X8. After a successful submission GetStatus answers [pending] for the
    submitted task, provided the name of the task is not one that objects
    inherit and the submission is later than every record the user had for
    the task. *)
Theorem X8_submitted_task_reads_pending (e : Entropy) (file : option Upload)
    (t addr : string) (st st' : Store) (id message : string) :
  Server.handle (SubmitVerification e file t addr) st = (json (Submitted id message), st') →
  Js.inherited t = false →
  (∀ w, w ∈ Verifications st → userAddress w = addr → task w = t →
        submittedAt w < submitted_now e) →
  Server.status_result addr st' !! t = Some pending.
Proof.
  intros (path & Hvs & _ & _)%submit_success Hi Hlater.
  pose proof (status_result_spec addr st' t Hi) as H.
  assert (mkVerification id addr t path pending None None (submitted_now e) None
            ∈ Verifications st') as Hnew.
  { rewrite Hvs. apply elem_of_app. right. apply list_elem_of_here. }
  destruct (Server.status_result addr st' !! t) as [s|].
  - destruct H as (w & Hw & Hwa & Hwt & <- & Hmax). f_equal.
    rewrite Hvs in Hw. apply elem_of_app in Hw as [Hw| ->%list_elem_of_singleton]; [|done].
    specialize (Hlater w Hw Hwa Hwt). specialize (Hmax _ Hnew eq_refl eq_refl).
    simpl in Hmax. lia.
  - by destruct (H _ Hnew eq_refl).
Qed.

Lemma X8_submitted_task_reads_pending_witness :
  let st := (Server.run
               [first_submit;
                UpdateVerification 3000 "VER1000K3X9ZQ1AB" "rejected" "blurred" "admin1"]
               empty_store).2 in
  Server.status_result "0xABC" st !! "twitter" = Some rejected ∧
  Server.status_result "0xABC" (Server.handle second_submit st).2 !! "twitter" = Some pending.
Proof.
  intros st. split; [reflexivity|].
  apply (X8_submitted_task_reads_pending later_entropy sample_png "twitter" "0xABC" st
           (Server.handle second_submit st).2 "VER5000P0Q8R7S6T"
           "Verification submitted successfully").
  - reflexivity.
  - reflexivity.
  - intros w Hw _ _. vm_compute in Hw. apply list_elem_of_singleton in Hw.
    subst w. simpl. lia.
Defined.

Section Queue.

Implicit Types (vs : list Verification) (v w : Verification) (id : string).

Lemma elem_of_pendingVerifications (st : Store) w :
  w ∈ Server.pendingVerifications st ↔ w ∈ Verifications st ∧ status w = pending.
Proof.
  unfold Server.pendingVerifications, Mongo.sort_ascending, Server.find_pending.
  rewrite merge_sort_Permutation, list_elem_of_filter. tauto.
Qed.

Lemma replace_keeps_others id v' vs w :
  w ∈ vs → verificationId w ≠ id → w ∈ Mongo.replace_verification id v' vs.
Proof.
  intros Hin Hne. induction vs as [|x vs IH]; simpl; [done|].
  apply elem_of_cons in Hin as [->|Hin].
  - destruct (String.eqb_spec (verificationId x) id); [done | by left].
  - destruct (String.eqb (verificationId x) id); right; [done | by apply IH].
Qed.

(** The first record with an identifier is the only one that a
    replacement can remove. *)
Lemma replace_keeps_or_first id v' vs x w :
  Mongo.findOne_verification id vs = Some x → w ∈ vs →
  w ∈ Mongo.replace_verification id v' vs ∨ w = x.
Proof.
  unfold Mongo.findOne_verification. intros Hf Hin.
  induction vs as [|y vs IH]; simpl in *; [by apply elem_of_nil in Hin|].
  destruct (String.eqb (verificationId y) id).
  - injection Hf as <-. apply elem_of_cons in Hin as [->|Hin]; [by right|].
    left. by right.
  - apply elem_of_cons in Hin as [->|Hin]; [left; by left|].
    destruct (IH Hf Hin); [left; by right | by right].
Qed.

(** The records that a review with a status of the enum leaves in the
    store, whether or not the update of the user goes through. *)
Lemma review_success (now : Z) id (newStatus notes by_ : string) (st : Store) v (s : Status) :
  Mongo.findOne_verification id (Verifications st) = Some v →
  status_of_string newStatus = Some s →
  Verifications (Server.handle (UpdateVerification now id newStatus notes by_) st).2 =
    Mongo.replace_verification id (Server.reviewed v s notes by_ now) (Verifications st).
Proof.
  intros Hf Hs. simpl. by rewrite update_verifications, Hf, Hs.
Qed.

End Queue.

(** X9. A review that gives an existing record a status other than
    [pending] takes exactly that record out of the pending queue: the queue
    afterwards holds the records it held before, except the reviewed
    one. *)
Theorem X9_review_leaves_queue (now : Z) (id newStatus notes by_ : string)
    (st : Store) (v : Verification) (s : Status) :
  Server.reachable st →
  Mongo.findOne_verification id (Verifications st) = Some v →
  status_of_string newStatus = Some s →
  s ≠ pending →
  ∀ w, w ∈ Server.pendingVerifications
             (Server.handle (UpdateVerification now id newStatus notes by_) st).2 ↔
       w ∈ Server.pendingVerifications st ∧ verificationId w ≠ id.
Proof.
  intros Hreach Hf Hs Hne w.
  apply reachable_well_formed in Hreach as [Hids _].
  rewrite !elem_of_pendingVerifications.
  rewrite (review_success now id newStatus notes by_ st v s Hf Hs). split.
  - intros [Hw Hp].
    apply elem_of_replace in Hw as [->|[[Hw Hid]|[_ Hdup]]]; [done|done|done].
  - intros [[Hw Hp] Hid]. split; [|done]. by apply replace_keeps_others.
Qed.

Lemma X9_review_leaves_queue_witness :
  let st := (Server.run [first_submit; second_submit] empty_store).2 in
  let st' := (Server.handle
                (UpdateVerification 6000 "VER1000K3X9ZQ1AB" "rejected" "blurred" "admin1")
                st).2 in
  let second := mkVerification "VER5000P0Q8R7S6T" "0xABC" "twitter" "uploads/5000-77.png"
                  pending None None 5001 None in
  second ∈ Server.pendingVerifications st' ↔
  second ∈ Server.pendingVerifications st ∧ verificationId second ≠ "VER1000K3X9ZQ1AB".
Proof.
  intros st st' second.
  apply (X9_review_leaves_queue 6000 "VER1000K3X9ZQ1AB" "rejected" "blurred" "admin1" st
           (mkVerification "VER1000K3X9ZQ1AB" "0xABC" "twitter" "uploads/1000-42.png"
              pending None None 1001 None) rejected).
  - apply (run_reachable [first_submit; second_submit]). constructor.
  - reflexivity.
  - reflexivity.
  - discriminate.
Defined.

(** X10. A successful submission enters the pending queue: the queue
    afterwards holds the records it held before and the new record, which
    carries the returned identifier, the submitted task and address, and no
    review. *)
Theorem X10_submission_enters_queue (e : Entropy) (file : option Upload)
    (t addr : string) (st st' : Store) (id message : string) :
  Server.handle (SubmitVerification e file t addr) st = (json (Submitted id message), st') →
  ∃ path,
    ∀ w, w ∈ Server.pendingVerifications st' ↔
         w ∈ Server.pendingVerifications st ∨
         w = mkVerification id addr t path pending None None (submitted_now e) None.
Proof.
  intros (path & Hvs & _ & _)%submit_success. exists path. intros w.
  rewrite !elem_of_pendingVerifications, Hvs, elem_of_app, list_elem_of_singleton.
  split; [tauto|]. intros [[? ?]| ->]; [tauto | by split; [right|]].
Qed.

Lemma X10_submission_enters_queue_witness :
  ∃ path,
    ∀ w, w ∈ Server.pendingVerifications (Server.handle first_submit empty_store).2 ↔
         w ∈ Server.pendingVerifications empty_store ∨
         w = mkVerification "VER1000K3X9ZQ1AB" "0xABC" "twitter" path
               pending None None 1001 None.
Proof.
  apply (X10_submission_enters_queue sample_entropy sample_png "twitter" "0xABC"
           empty_store (Server.handle first_submit empty_store).2 "VER1000K3X9ZQ1AB"
           "Verification submitted successfully").
  reflexivity.
Defined.

(** ** Reviews, flags and registrations *)

Lemma run_two (req1 req2 : Request) (st : Store) :
  (Server.run [req1; req2] st).2 = (Server.handle req2 (Server.handle req1 st).2).2.
Proof. by rewrite !run_cons. Qed.

(** X11. Of two reviews of the same record the later one wins: the record
    ends with the status, reviewer, notes and review time of the second and
    keeps nothing of the first. *)
Theorem X11_last_review_wins (now1 now2 : Z)
    (id status1 notes1 by1 status2 notes2 by2 : string)
    (st : Store) (v : Verification) (s1 s2 : Status) :
  Mongo.findOne_verification id (Verifications st) = Some v →
  status_of_string status1 = Some s1 →
  status_of_string status2 = Some s2 →
  Mongo.findOne_verification id
    (Verifications
       (Server.run [UpdateVerification now1 id status1 notes1 by1;
                    UpdateVerification now2 id status2 notes2 by2] st).2) =
  Some (mkVerification (verificationId v) (userAddress v) (task v) (screenshotPath v)
          s2 (Some by2) (Some notes2) (submittedAt v) (Some now2)).
Proof.
  intros Hf Hs1 Hs2.
  pose proof Hf as [_ Hid]%findOne_verification_Some.
  rewrite run_two.
  set (st1 := (Server.handle (UpdateVerification now1 id status1 notes1 by1) st).2).
  assert (Mongo.findOne_verification id (Verifications st1) =
          Some (Server.reviewed v s1 notes1 by1 now1)) as Hf1.
  { unfold st1. rewrite (review_success now1 id status1 notes1 by1 st v s1 Hf Hs1).
    by destruct (replace_found id v (Server.reviewed v s1 notes1 by1 now1)
                   (Verifications st) Hf Hid). }
  rewrite (review_success now2 id status2 notes2 by2 st1
             (Server.reviewed v s1 notes1 by1 now1) s2 Hf1 Hs2).
  destruct (replace_found id (Server.reviewed v s1 notes1 by1 now1)
              (Server.reviewed (Server.reviewed v s1 notes1 by1 now1) s2 notes2 by2 now2)
              (Verifications st1) Hf1 Hid) as [Hf2 _].
  exact Hf2.
Qed.

Lemma X11_last_review_wins_witness :
  let st := (Server.run [first_submit] empty_store).2 in
  Mongo.findOne_verification "VER1000K3X9ZQ1AB"
    (Verifications
       (Server.run [UpdateVerification 3000 "VER1000K3X9ZQ1AB" "verified" "fine" "admin1";
                    UpdateVerification 4000 "VER1000K3X9ZQ1AB" "rejected" "fake" "admin2"]
          st).2) =
  Some (mkVerification "VER1000K3X9ZQ1AB" "0xABC" "twitter" "uploads/1000-42.png"
          rejected (Some "admin2") (Some "fake") 1001 (Some 4000)).
Proof.
  intros st.
  apply (X11_last_review_wins 3000 4000 "VER1000K3X9ZQ1AB" "verified" "fine" "admin1"
           "rejected" "fake" "admin2" st
           (mkVerification "VER1000K3X9ZQ1AB" "0xABC" "twitter" "uploads/1000-42.png"
              pending None None 1001 None) verified rejected); reflexivity.
Defined.

(** X12. A completed task stays completed under every request but a new
    submission by the same user for the same task: no review, whatever its
    status, and no registration turns [tasksCompleted[task]] from [true] to
    anything else. *)
Theorem X12_only_resubmission_clears_flag (req : Request) (st : Store) (addr t : string) :
  (∀ e file, req ≠ SubmitVerification e file t addr) →
  Server.task_completed addr t st = Some true →
  Server.task_completed addr t (Server.handle req st).2 = Some true.
Proof.
  intros Hreq Htrue. destruct st as [vs us].
  destruct req as [e file t0 a|a| |now id s notes by_|now a r|a]; simpl; try done.
  - unfold Server.submit_verification.
    destruct (Multer.single _ _ _); try done.
    destruct (Mongo.insert_verification _ _) as [vs'|]; [|done].
    destruct (Mongo.upsert_refused _ _); simpl; [done|].
    unfold Mongo.upsert_user.
    destruct (Mongo.findOne_user a us) as [u|] eqn:Ea.
    + rewrite (task_completed_update _ _ _ _ _ vs).
      case_decide as Hd; [|done]. destruct Hd as [-> ->]. by destruct (Hreq e file).
    + destruct (task_completed_created addr a t vs vs' us
                  (user_set_task t0 false (mkUser a None false (registered_now e) no_tasks [])))
        as [->|(_ & Hb & _)]; [done|done| |done|congruence].
      simpl. intros b. rewrite get_set_task. case_decide.
      * destruct (get_task t no_tasks); simpl; congruence.
      * apply get_task_no_tasks.
  - unfold Server.update_verification. simpl.
    destruct (Mongo.findOne_verification id vs) as [v|]; [|done].
    destruct (status_of_string s); [|done]. simpl.
    destruct (String.eqb s "verified"); [|done].
    destruct (Mongo.update_refused _ _); simpl; [done|].
    rewrite (task_completed_update _ _ _ _ _ vs).
    case_decide; [|done]. by rewrite Htrue.
  - unfold Server.track_registration, Mongo.insert_user. simpl.
    destruct (Mongo.findOne_user a us) eqn:Ea; simpl; [done|].
    destruct (task_completed_created addr a t vs vs us
                (mkUser a (Some r) true now no_tasks []))
      as [->|(_ & Hb & _)]; [done|done|apply get_task_no_tasks|done|congruence].
  - unfold Server.get_user. simpl. by destruct (Mongo.findOne_user a us).
Qed.

Lemma X12_only_resubmission_clears_flag_witness :
  let st := (Server.run
               [first_submit;
                UpdateVerification 3000 "VER1000K3X9ZQ1AB" "verified" "fine" "admin1"]
               empty_store).2 in
  let reject := UpdateVerification 4000 "VER1000K3X9ZQ1AB" "rejected" "fake" "admin2" in
  Server.task_completed "0xABC" "twitter" (Server.handle reject st).2 = Some true ∧
  Server.status_result "0xABC" (Server.handle reject st).2 !! "twitter" = Some rejected.
Proof.
  intros st reject. split; [|reflexivity].
  apply (X12_only_resubmission_clears_flag reject st "0xABC" "twitter").
  - intros e file. discriminate.
  - reflexivity.
Defined.

(** X13. A registration that succeeds can be read back: GetUser for the
    address answers with the record just created, active, with the given
    referral code, the time of the registration, no completed task and no
    claim. *)
Theorem X13_registration_read_back (now : Z) (addr code_ : string) (st st' : Store) :
  Server.handle (TrackRegistration now addr code_) st = (json Success, st') →
  Server.handle (GetUser addr) st' =
    (json (UserBody (mkUser addr (Some code_) true now no_tasks [])), st').
Proof.
  simpl. unfold Server.track_registration, Mongo.insert_user. simpl.
  destruct (Mongo.findOne_user addr (Users st)) eqn:E; [intros H; discriminate H|].
  intros [= <-]. unfold Server.get_user. simpl.
  rewrite findOne_user_app, E. unfold Mongo.findOne_user. simpl.
  by rewrite String.eqb_refl.
Qed.

Lemma X13_registration_read_back_witness :
  let st' := (Server.handle (TrackRegistration 10 "0xABC" "REF7") empty_store).2 in
  Server.handle (GetUser "0xABC") st' =
    (json (UserBody (mkUser "0xABC" (Some "REF7") true 10 no_tasks [])), st').
Proof.
  intros st'. apply (X13_registration_read_back 10 "0xABC" "REF7" empty_store st').
  reflexivity.
Defined.

(** X14. For every user, GetStatus answers with status 200, changes
    nothing, and under every task name that objects do not inherit its
    mapping holds the status of a record of that user and task with the
    greatest [submittedAt], or nothing exactly when the user has no record
    for the task. *)
Theorem X14_get_status_latest (addr : string) (st : Store) :
  ∃ result,
    Server.handle (VerificationStatus addr) st = (json (StatusBody result), st) ∧
    ∀ t, Js.inherited t = false →
      match result !! t with
      | Some s =>
          ∃ w, w ∈ Verifications st ∧ userAddress w = addr ∧ task w = t ∧ status w = s ∧
               ∀ v, v ∈ Verifications st → userAddress v = addr → task v = t →
                    submittedAt v ≤ submittedAt w
      | None => ∀ v, v ∈ Verifications st → userAddress v = addr → task v ≠ t
      end.
Proof.
  exists (Server.status_result addr st). split; [reflexivity|].
  intros t Hi. by apply status_result_spec.
Qed.

Lemma X14_get_status_latest_witness :
  let st := (Server.run [first_submit; second_submit] empty_store).2 in
  ∃ result,
    Server.handle (VerificationStatus "0xABC") st = (json (StatusBody result), st) ∧
    result !! "twitter" = Some pending ∧
    ∃ w, w ∈ Verifications st ∧ userAddress w = "0xABC" ∧ task w = "twitter" ∧
         status w = pending ∧
         ∀ v, v ∈ Verifications st → userAddress v = "0xABC" → task v = "twitter" →
              submittedAt v ≤ submittedAt w.
Proof.
  intros st.
  destruct (X14_get_status_latest "0xABC" st) as (result & Hh & Hspec).
  exists result. split; [exact Hh|].
  specialize (Hspec "twitter" eq_refl).
  assert (result !! "twitter" = Some pending) as Hr by (by injection Hh as <-).
  split; [exact Hr|]. rewrite Hr in Hspec. exact Hspec.
Defined.

(** X15. Every Verification of a reachable store whose task does not lie
    below a declared leaf of [tasksCompleted] belongs to a user that GetUser
    finds: the submission that created the record also made sure of the
    User record, and neither is ever deleted. *)
Theorem X15_verification_has_user (reqs : list Request) (v : Verification) :
  v ∈ Verifications (Server.run reqs empty_store).2 →
  below_declared_leaf (task v) = false →
  ∃ u, Server.handle (GetUser (userAddress v)) (Server.run reqs empty_store).2 =
         (json (UserBody u), (Server.run reqs empty_store).2) ∧
       u_userAddress u = userAddress v.
Proof.
  intros Hv Hb.
  assert (well_formed (Server.run reqs empty_store).2) as [_ Husers].
  { apply reachable_well_formed, run_reachable. constructor. }
  destruct (Husers v Hv Hb) as [u Hu]. exists u.
  simpl. unfold Server.get_user. rewrite Hu. split; [done|].
  by apply findOne_user_Some in Hu as [_ ?].
Qed.

Lemma X15_verification_has_user_witness :
  let v := mkVerification "VER1000K3X9ZQ1AB" "0xABC" "twitter" "uploads/1000-42.png"
             pending None None 1001 None in
  ∃ u, Server.handle (GetUser "0xABC") (Server.run [first_submit] empty_store).2 =
         (json (UserBody u), (Server.run [first_submit] empty_store).2) ∧
       u_userAddress u = "0xABC".
Proof.
  intros v. apply (X15_verification_has_user [first_submit] v).
  - vm_compute. apply list_elem_of_here.
  - reflexivity.
Defined.

(** A submission for a path with an empty component by an address without
    a record: the Verification is saved, the upsert is refused, and the
    store holds a Verification whose user GetUser does not find. *)
Example verification_without_user :
  let answer := Server.handle
                  (SubmitVerification sample_entropy sample_png "twitter." "0xABC")
                  empty_store in
  answer.1 = mkResponse 500 (Failure empty_field_name) ∧
  ids (Verifications answer.2) = ["VER1000K3X9ZQ1AB"] ∧
  (Server.handle (GetUser "0xABC") answer.2).1 =
    mkResponse 404 (ErrorBody "User not found").
Proof. by split_and!. Qed.

Section Backed.

Implicit Types (st : Store) (req : Request) (v : Verification) (addr t : string).

(** An entry that reads [true] after a step read [true] before it, or the
    step is a review of a record of that user and task. *)
Lemma completed_origin req st addr t :
  Server.task_completed addr t (Server.handle req st).2 = Some true →
  Server.task_completed addr t st = Some true ∨
  ∃ now id s notes by_ v x,
    req = UpdateVerification now id s notes by_ ∧
    Mongo.findOne_verification id (Verifications st) = Some v ∧
    status_of_string s = Some x ∧ userAddress v = addr ∧ task v = t.
Proof.
  destruct st as [vs us].
  destruct req as [e file t0 a|a| |now id s notes by_|now a r|a]; simpl;
    try (by left).
  - unfold Server.submit_verification.
    destruct (Multer.single _ _ _); try (by left).
    destruct (Mongo.insert_verification _ _) as [vs'|]; [|by left].
    destruct (Mongo.upsert_refused _ _); simpl; [by left|].
    unfold Mongo.upsert_user.
    destruct (Mongo.findOne_user a us) as [u|] eqn:Ea.
    + rewrite (task_completed_update _ _ _ _ _ vs).
      case_decide; [|by left].
      by destruct (Server.task_completed addr t (mkStore vs us)).
    + destruct (task_completed_created addr a t vs vs' us
                  (user_set_task t0 false (mkUser a None false (registered_now e) no_tasks [])))
        as [->|(_ & _ & ->)]; [done|done| |by left|done].
      simpl. intros b. rewrite get_set_task. case_decide.
      * destruct (get_task t no_tasks); simpl; congruence.
      * apply get_task_no_tasks.
  - unfold Server.update_verification. simpl.
    destruct (Mongo.findOne_verification id vs) as [v|] eqn:Ev; [|by left].
    destruct (status_of_string s) as [x|] eqn:Es; [|by left]. simpl.
    destruct (String.eqb s "verified"); [|by left].
    destruct (Mongo.update_refused _ _); simpl; [by left|].
    rewrite (task_completed_update _ _ _ _ _ vs).
    case_decide as Hd; [|by left]. destruct Hd as [-> ->].
    intros _. right. by exists now, id, s, notes, by_, v, x.
  - unfold Server.track_registration, Mongo.insert_user. simpl.
    destruct (Mongo.findOne_user a us) eqn:Ea; simpl; [by left|].
    destruct (task_completed_created addr a t vs vs us
                (mkUser a (Some r) true now no_tasks []))
      as [->|(_ & _ & ->)]; [done|done|apply get_task_no_tasks|by left|done].
  - unfold Server.get_user. simpl. destruct (Mongo.findOne_user a us); by left.
Qed.

(** A reviewed record of a user and task is followed by one. *)
Lemma handle_reviewed_kept req st v :
  v ∈ Verifications st → is_Some (reviewedAt v) →
  ∃ v', v' ∈ Verifications (Server.handle req st).2 ∧
        userAddress v' = userAddress v ∧ task v' = task v ∧ is_Some (reviewedAt v').
Proof.
  intros Hv Hr.
  destruct req as [e file t0 a|a| |now id s notes by_|now a r|a]; simpl;
    try (by exists v).
  - rewrite submit_verifications.
    destruct (Multer.single _ _ _); try (by exists v).
    unfold Mongo.insert_verification.
    destruct (Mongo.findOne_verification _ _); [by exists v|]. simpl.
    exists v. split; [|done]. apply elem_of_app. by left.
  - rewrite update_verifications.
    destruct (Mongo.findOne_verification id (Verifications st)) as [x|] eqn:Ex;
      [|by exists v].
    destruct (status_of_string s) as [y|]; [|by exists v]. simpl.
    destruct (replace_keeps_or_first id (Server.reviewed x y notes by_ now)
                (Verifications st) x v Ex Hv) as [Hin| ->].
    + by exists v.
    + exists (Server.reviewed x y notes by_ now). split; [|by simpl].
      apply (replace_found id x); [done|].
      by apply findOne_verification_Some in Ex as [_ ?].
  - unfold Server.track_registration. destruct (Mongo.insert_user _ _); by exists v.
  - unfold Server.get_user. destruct (Mongo.findOne_user _ _); by exists v.
Qed.

End Backed.

(** X16. A completed task is backed by a review: in every store reached
    from the empty one, if [tasksCompleted[task]] of a user is [true] then
    the user has a Verification for that task that carries a review
    time. *)
Theorem X16_completed_task_was_reviewed (reqs : list Request) (addr t : string) :
  Server.task_completed addr t (Server.run reqs empty_store).2 = Some true →
  ∃ v, v ∈ Verifications (Server.run reqs empty_store).2 ∧
       userAddress v = addr ∧ task v = t ∧ is_Some (reviewedAt v).
Proof.
  assert (∀ st, (∀ a t', Server.task_completed a t' st = Some true →
                   ∃ v, v ∈ Verifications st ∧ userAddress v = a ∧ task v = t' ∧
                        is_Some (reviewedAt v)) →
                ∀ a t', Server.task_completed a t' (Server.run reqs st).2 = Some true →
                   ∃ v, v ∈ Verifications (Server.run reqs st).2 ∧ userAddress v = a ∧
                        task v = t' ∧ is_Some (reviewedAt v)) as H.
  { induction reqs as [|req reqs IH]; intros st Hst; [done|].
    rewrite run_cons. simpl. apply IH. clear IH. intros a t' Htrue.
    apply completed_origin in Htrue
      as [Htrue|(now & id & s & notes & by_ & v & x & -> & Hf & Hs & <- & <-)].
    - destruct (Hst a t' Htrue) as (v & Hv & <- & <- & Hr).
      destruct (handle_reviewed_kept req st v Hv Hr) as (v' & ? & ? & ? & ?).
      by exists v'.
    - rewrite (review_success now id s notes by_ st v x Hf Hs).
      exists (Server.reviewed v x notes by_ now). split; [|by simpl].
      apply (replace_found id v); [done|].
      by apply findOne_verification_Some in Hf as [_ ?]. }
  apply H. intros a t'. unfold Server.task_completed. simpl. done.
Qed.

Lemma X16_completed_task_was_reviewed_witness :
  let reqs := [first_submit;
               UpdateVerification 3000 "VER1000K3X9ZQ1AB" "verified" "fine" "admin1"] in
  ∃ v, v ∈ Verifications (Server.run reqs empty_store).2 ∧
       userAddress v = "0xABC" ∧ task v = "twitter" ∧ is_Some (reviewedAt v).
Proof.
  intros reqs. apply (X16_completed_task_was_reviewed reqs "0xABC" "twitter").
  reflexivity.
Defined.

(** ** What a submission needs *)

(** X17. A submission is answered with status 200 only if it carries a
    file that passes the filter of the middleware, the file is no larger
    than 5 MiB and no stored record has the generated identifier; and it is
    answered with status 200 whenever it carries a file that passes the
    filter, the file is smaller than 5 MiB, the identifier is new and the
    task does not lie below a declared leaf of [tasksCompleted]. *)
Theorem X17_submit_accepted (e : Entropy) (file : option Upload)
    (t addr : string) (st : Store) :
  (code (Server.handle (SubmitVerification e file t addr) st).1 = 200 →
   ∃ f, file = Some f ∧ Multer.fileFilter f = true ∧ size f ≤ 5 * 1024 * 1024 ∧
        Server.new_verificationId e ∉ ids (Verifications st)) ∧
  (∀ f, file = Some f → Multer.fileFilter f = true → size f < 5 * 1024 * 1024 →
        Server.new_verificationId e ∉ ids (Verifications st) →
        below_declared_leaf t = false →
        (Server.handle (SubmitVerification e file t addr) st).1 =
          json (Submitted (Server.new_verificationId e)
                  "Verification submitted successfully")).
Proof.
  simpl. unfold Server.submit_verification, Multer.single, Multer.fileSize,
    Mongo.insert_verification.
  destruct file as [f|]; simpl.
  2:{ split; [done | by intros f [=]]. }
  destruct (Multer.fileFilter f) eqn:Eff; simpl.
  2:{ split; [done|]. intros f' [= <-] ?. congruence. }
  destruct (Z.ltb_spec (5 * 1024 * 1024) (size f)); simpl.
  { split; [done|]. intros f' [= <-] _ ?. lia. }
  destruct (Mongo.findOne_verification _ _) eqn:E; simpl.
  - split; [done|]. intros f' _ _ _ Hnew.
    apply findOne_verification_None in Hnew. congruence.
  - split.
    + intros _. exists f.
      split; [done|]. split; [done|]. split; [lia|].
      by apply findOne_verification_None.
    + intros f' _ _ _ _ Hb. by rewrite (upsert_refused_below _ _ Hb).
Qed.

Lemma X17_submit_accepted_witness :
  code (Server.handle first_submit empty_store).1 = 200 ∧
  (Server.handle first_submit empty_store).1 =
    json (Submitted "VER1000K3X9ZQ1AB" "Verification submitted successfully").
Proof.
  destruct (X17_submit_accepted sample_entropy sample_png "twitter" "0xABC" empty_store)
    as [_ Hok].
  split; [reflexivity|].
  apply (Hok (mkUpload "shot.png" "image/png" 2048));
    [reflexivity|reflexivity|simpl; lia| |reflexivity].
  apply not_elem_of_nil.
Defined.

Section Extension.

Lemma split_dot_None (cs : list ascii) :
  Path.dot ∉ cs → Path.split_dot cs = None.
Proof.
  induction cs as [|c cs IH]; simpl; [done|].
  intros [Hc Hcs]%not_elem_of_cons.
  destruct (Ascii.eqb_spec c Path.dot); [congruence|]. by rewrite IH.
Qed.

Lemma until_slash_subseteq (cs : list ascii) : Path.until_slash cs ⊆ cs.
Proof.
  induction cs as [|c cs IH]; simpl; [done|].
  destruct (Ascii.eqb c Path.slash); [apply list_subseteq_nil|].
  intros x [->|Hx]%elem_of_cons; [by left | right; by apply IH].
Qed.

Lemma drop_slashes_subseteq (cs : list ascii) : Path.drop_slashes cs ⊆ cs.
Proof.
  induction cs as [|c cs IH]; simpl; [done|].
  destruct (Ascii.eqb c Path.slash); [|done].
  intros x Hx. right. by apply IH.
Qed.

Lemma extname_no_dot (p : string) :
  Path.dot ∉ String.list_ascii_of_string p → Path.extname p = "".
Proof.
  intros Hp. unfold Path.extname. rewrite split_dot_None; [done|].
  intros Hin. apply until_slash_subseteq, drop_slashes_subseteq in Hin.
  apply Hp. by apply elem_of_reverse.
Qed.

End Extension.

(** X18. An upload whose file name contains no dot has no extension and
    is turned away whatever its declared type and size: the answer is the
    500 of the default error handler and the store is unchanged. *)
Theorem X18_name_without_dot_refused (e : Entropy) (f : Upload)
    (t addr : string) (st : Store) :
  Path.dot ∉ String.list_ascii_of_string (originalname f) →
  Server.handle (SubmitVerification e (Some f) t addr) st =
    (mkResponse 500 (ErrorPage "Only image files are allowed"), st).
Proof.
  intros Hname. simpl. unfold Server.submit_verification, Multer.single, Multer.fileFilter.
  rewrite (extname_no_dot _ Hname).
  replace (Multer.filetypes (Js.toLowerCase "")) with false by reflexivity.
  by rewrite andb_false_r.
Qed.

Lemma X18_name_without_dot_refused_witness :
  Server.handle
    (SubmitVerification sample_entropy (Some (mkUpload "screenshot" "image/png" 2048))
       "twitter" "0xABC") empty_store =
    (mkResponse 500 (ErrorPage "Only image files are allowed"), empty_store).
Proof.
  apply (X18_name_without_dot_refused sample_entropy
           (mkUpload "screenshot" "image/png" 2048) "twitter" "0xABC" empty_store).
  simpl. rewrite !not_elem_of_cons. repeat split; try discriminate.
  apply not_elem_of_nil.
Defined.

(** * Properties of the page *)

(** ** Choosing, dropping and submitting a file *)

(** X19. [submitVerification] posts a form exactly when a task with a
    non-empty name is selected and the file input holds a file; the form
    carries the first file of the input, the selected task, the address of
    the user and the time. *)
Theorem X19_submit_sends_iff (now : Z) (p : Client.Page) (s : Client.Submission) :
  (Client.submitVerification now p).2 = Some s ↔
  ∃ t f rest,
    Client.currentVerificationTask p = Some t ∧ t ≠ "" ∧
    Client.files p = f :: rest ∧
    s = Client.mkSubmission f t (Client.userAddress p) now.
Proof.
  unfold Client.submitVerification.
  destruct (Client.currentVerificationTask p) as [t|].
  2:{ split; [done | by intros (? & ? & ? & ? & _)]. }
  destruct (String.eqb_spec t "") as [->|Ht].
  { split; [done|]. intros (? & ? & ? & [= <-] & ? & _). done. }
  destruct (Client.files p) as [|f rest]; simpl.
  { split; [done | by intros (? & ? & ? & _ & _ & ? & _)]. }
  split.
  - intros [= <-]. by exists t, f, rest.
  - by intros (? & ? & ? & [= <-] & _ & [= <- <-] & ->).
Qed.

Lemma X19_submit_sends_iff_witness :
  let png := Widget.mkFile "shot.png" "image/png" 2048 in
  let p := Client.mkPage fresh_widget [png] (Some "twitter") (Client.Plain "")
             Widget.block true ∅ [] (Some "0xABC") in
  (Client.submitVerification 77 p).2 =
    Some (Client.mkSubmission png "twitter" (Some "0xABC") 77).
Proof.
  intros png p.
  apply (X19_submit_sends_iff 77 p (Client.mkSubmission png "twitter" (Some "0xABC") 77)).
  exists "twitter", png, []. by repeat split.
Defined.

(** X20. A file that is dropped on the drop area never reaches the file
    input: when the input is empty, a dropped file that passes the checks
    enables the submit button, and [submitVerification] then posts
    nothing. *)
Theorem X20_dropped_file_is_not_posted (now : Z) (f : Widget.File)
    (rest : list Widget.File) (result : string) (p : Client.Page) :
  Client.files p = [] →
  Widget.handleFiles (f :: rest) = Widget.Reading f →
  let p' := (Client.drop (f :: rest) result p).1 in
  Widget.submitVerification_disabled (Client.upload p') = false ∧
  (Client.submitVerification now p').2 = None.
Proof.
  intros Hfiles Hread. unfold Client.drop, Widget.choose. rewrite Hread. simpl.
  split; [done|]. unfold Client.submitVerification. simpl. rewrite Hfiles.
  destruct (Client.currentVerificationTask p) as [t|]; [|done].
  by destruct (String.eqb t "").
Qed.

Lemma X20_dropped_file_is_not_posted_witness :
  let png := Widget.mkFile "shot.png" "image/png" 2048 in
  let p := Client.openVerificationModal "twitter"
             (Client.mkPage fresh_widget [] None (Client.Plain "")
                Widget.none false ∅ [] (Some "0xABC")) in
  let p' := (Client.drop [png] "data:image/png;base64,AA==" p).1 in
  Widget.submitVerification_disabled (Client.upload p') = false ∧
  (Client.submitVerification 77 p').2 = None.
Proof.
  intros png p.
  apply (X20_dropped_file_is_not_posted 77 png [] "data:image/png;base64,AA==" p);
    reflexivity.
Defined.

(** X21. A file that [handleFiles] refuses stays in the file input: after
    the refusal the submit button is as it was, so if an earlier file had
    enabled it, [submitVerification] posts the refused file. *)
Theorem X21_refused_file_is_posted (now : Z) (f : Widget.File)
    (rest : list Widget.File) (result t : string) (a : Widget.Alert) (p : Client.Page) :
  Client.currentVerificationTask p = Some t → t ≠ "" →
  Widget.handleFiles (f :: rest) = Widget.Refused a →
  let p' := (Client.change (f :: rest) result p).1 in
  (Client.change (f :: rest) result p).2 = Some a ∧
  Widget.submitVerification_disabled (Client.upload p') =
    Widget.submitVerification_disabled (Client.upload p) ∧
  Client.submitVerification now p' =
    (Client.Loading, Some (Client.mkSubmission f t (Client.userAddress p) now)).
Proof.
  intros Ht Hne Hrefused. unfold Client.change, Widget.choose. rewrite Hrefused. simpl.
  split; [done|]. split; [done|].
  unfold Client.submitVerification. simpl. rewrite Ht.
  by destruct (String.eqb_spec t "").
Qed.

Lemma X21_refused_file_is_posted_witness :
  let png := Widget.mkFile "shot.png" "image/png" 2048 in
  let pdf := Widget.mkFile "proof.pdf" "application/pdf" 1000 in
  let p := (Client.change [png] "data:image/png;base64,AA=="
              (Client.openVerificationModal "twitter"
                 (Client.mkPage fresh_widget [] None (Client.Plain "")
                    Widget.none false ∅ [] (Some "0xABC")))).1 in
  let p' := (Client.change [pdf] "" p).1 in
  Widget.submitVerification_disabled (Client.upload p') = false ∧
  Client.submitVerification 77 p' =
    (Client.Loading, Some (Client.mkSubmission pdf "twitter" (Some "0xABC") 77)).
Proof.
  intros png pdf p p'.
  destruct (X21_refused_file_is_posted 77 pdf [] "" "twitter"
              (Widget.mkAlert "error" "Invalid File"
                 "Please upload an image file (JPG, PNG, GIF)") p)
    as (_ & Hbtn & Hpost); [reflexivity|discriminate|reflexivity|].
  split; [|exact Hpost]. unfold p'. rewrite Hbtn. reflexivity.
Defined.

(** X22. Opening and closing the modal discard the chosen file: right
    after either the file input is empty, the preview is hidden, the submit
    button is disabled and [submitVerification] posts nothing; after
    closing no task is selected either. *)
Theorem X22_modal_discards_file (now : Z) (t : string) (p : Client.Page) :
  (let q := Client.openVerificationModal t p in
   Client.files q = [] ∧
   Widget.submitVerification_disabled (Client.upload q) = true ∧
   Widget.previewContainer_display (Client.upload q) = Widget.none ∧
   Client.currentVerificationTask q = Some t ∧
   (Client.submitVerification now q).2 = None) ∧
  (let q := Client.closeModal p in
   Client.files q = [] ∧
   Widget.submitVerification_disabled (Client.upload q) = true ∧
   Widget.previewContainer_display (Client.upload q) = Widget.none ∧
   Client.submitVerification now q = (Client.WindowAlert "No task selected", None)).
Proof.
  split; simpl; repeat split.
  unfold Client.submitVerification. simpl. by destruct (String.eqb t "").
Qed.

(** ** The answer to a submission *)

Section Replies.

Variable matching : string → option (string → bool).

Lemma updateTaskStatus_pending (t : string) (p : Client.Page) :
  Client.updateTaskStatus matching t "pending" p =
  (match Client.statusElements p !! (t +:+ "Status") with
   | None => p
   | Some _ =>
       Client.mkPage (Client.upload p) (Client.files p)
         (Client.currentVerificationTask p) (Client.modalTitle p)
         (Client.verificationModal_display p) (Client.body_no_scroll p)
         (<[t +:+ "Status" :=
              Client.mkStatusElement "status pending"
                (Client.Plain "⏳ Pending Verification")]> (Client.statusElements p))
         (Client.controls p) (Client.userAddress p)
   end, false).
Proof.
  unfold Client.updateTaskStatus.
  by destruct (Client.statusElements p !! (t +:+ "Status")).
Qed.

(** X23. On an answer with a true [success] the page shows the success
    dialog with the task and the returned identifier, marks the status
    element of the task, if the page has one, as pending, and closes the
    modal: no task selected, the file discarded, the submit button
    disabled.  No other status element and no control changes. *)
Theorem X23_accepted_reply (id : string) (p : Client.Page) :
  let t := Client.task_text p in
  let '(notice, q) := Client.submitVerification_then matching (Client.Accepted id) p in
  notice = Client.Succeeded t id ∧
  Client.currentVerificationTask q = None ∧
  Client.verificationModal_display q = Widget.none ∧
  Client.files q = [] ∧
  Widget.submitVerification_disabled (Client.upload q) = true ∧
  Client.controls q = Client.controls p ∧
  Client.statusElements q =
    match Client.statusElements p !! (t +:+ "Status") with
    | Some _ =>
        <[t +:+ "Status" :=
            Client.mkStatusElement "status pending"
              (Client.Plain "⏳ Pending Verification")]> (Client.statusElements p)
    | None => Client.statusElements p
    end.
Proof.
  simpl. rewrite updateTaskStatus_pending. simpl.
  repeat split; by destruct (Client.statusElements p !! _).
Qed.

(** X24. On any other answer, a JSON body without a true [success] or an
    exception, the page is left exactly as it was, with the modal open and
    the file chosen, and the error dialog shows a message that is never
    empty. *)
Theorem X24_failed_reply (r : Client.Reply) (p : Client.Page) :
  (∀ id, r ≠ Client.Accepted id) →
  ∃ message,
    Client.submitVerification_then matching r p =
      (Client.Fired (Widget.mkAlert "error" "Submission Failed" message), p) ∧
    message ≠ "".
Proof.
  intros Hr. destruct r as [id|error|message]; [by destruct (Hr id)| |]; simpl;
    eexists; (split; [reflexivity|]); unfold Client.or_else.
  - by destruct (String.eqb_spec error "").
  - by destruct (String.eqb_spec message "").
Qed.

End Replies.

Lemma X24_failed_reply_witness :
  let p := Client.mkPage fresh_widget [] (Some "twitter") (Client.Plain "")
             Widget.block true ∅ [] (Some "0xABC") in
  ∃ message,
    Client.submitVerification_then Client.contains (Client.Declined "") p =
      (Client.Fired (Widget.mkAlert "error" "Submission Failed" message), p) ∧
    message ≠ "".
Proof.
  intros p. apply (X24_failed_reply Client.contains (Client.Declined "") p).
  intros id. discriminate.
Defined.

(** ** A submission from the page to the store *)



(** ** The status poll *)

Section Poll.

Variable matching : string → option (string → bool).

Implicit Types (p q : Client.Page) (t s : string) (entries : list (string * string)).

Lemma never_enabled_refl (cs : list Client.Control) : never_enabled cs cs.
Proof. unfold never_enabled. induction cs; by constructor. Qed.

Lemma never_enabled_trans (cs1 cs2 cs3 : list Client.Control) :
  never_enabled cs1 cs2 → never_enabled cs2 cs3 → never_enabled cs1 cs3.
Proof.
  unfold never_enabled. intros H12. revert cs3.
  induction H12 as [|c1 c2 cs1 cs2 [Ho Hd] _ IH]; intros cs3 H23.
  - by inversion H23.
  - inversion H23 as [|? c3 ? cs3' [Ho' Hd'] Hrest]; subst. constructor.
    + split; [congruence | auto].
    + by apply IH.
Qed.

Lemma never_enabled_verify (test : string → bool) (cs : list Client.Control) :
  never_enabled cs
    ((λ c, if test (Client.onclick c) then Client.verify_control c else c) <$> cs).
Proof.
  unfold never_enabled. induction cs as [|c cs IH]; csimpl; constructor; [|done].
  by destruct (test (Client.onclick c)).
Qed.

(** What one call of [updateTaskStatus] does to the page. *)
Lemma updateTaskStatus_effect t s p :
  let '(q, threw) := Client.updateTaskStatus matching t s p in
  modal_state q = modal_state p ∧
  never_enabled (Client.controls p) (Client.controls q) ∧
  (threw = true → s = "verified" ∧ matching t = None) ∧
  Client.statusElements q =
    match Client.statusElements p !! (t +:+ "Status") with
    | Some _ =>
        <[t +:+ "Status" :=
            Client.mkStatusElement ("status " +:+ s)
              (Client.lookup_or Client.statusText s s)]> (Client.statusElements p)
    | None => Client.statusElements p
    end ∧
  (s = "verified" → is_Some (Client.statusElements p !! (t +:+ "Status")) →
   ∀ test, matching t = Some test →
     ∀ c, c ∈ Client.controls q → test (Client.onclick c) = true →
          Client.disabled c = true).
Proof.
  unfold Client.updateTaskStatus.
  destruct (Client.statusElements p !! (t +:+ "Status")) as [el|] eqn:E.
  2:{ split_and!; [done|apply never_enabled_refl|done|done|]. by intros _ [? ?]. }
  destruct (String.eqb_spec s "verified") as [->|Hs].
  - destruct (matching t) as [test|] eqn:Em; simpl.
    + split_and!; [done|apply never_enabled_verify|done|done|].
      intros _ _ test' [= <-] c Hc Htest.
      apply list_elem_of_fmap in Hc as (c0 & -> & _).
      destruct (test (Client.onclick c0)) eqn:E0; [done|]. congruence.
    + split_and!; [done|apply never_enabled_refl|done|done|]. by intros _ _ test.
  - simpl. split_and!; [done|apply never_enabled_refl|done|done|done].
Qed.

Lemma poll_never_enables entries p :
  never_enabled (Client.controls p)
    (Client.controls (Client.checkVerificationStatus_then matching entries p)) ∧
  modal_state (Client.checkVerificationStatus_then matching entries p) = modal_state p.
Proof.
  revert p. induction entries as [|[t s] entries IH]; intros p; simpl.
  - split; [apply never_enabled_refl | done].
  - pose proof (updateTaskStatus_effect t s p) as H.
    destruct (Client.updateTaskStatus matching t s p) as [p1 threw].
    destruct H as (Hm & Hc & _). destruct threw; [done|].
    destruct (IH p1) as [Hc' Hm']. split; [|congruence].
    by apply (never_enabled_trans _ (Client.controls p1)).
Qed.

(** X26. A poll never enables a control and never touches the modal:
    whatever statuses arrive, in whatever order, and whatever the
    selectors match, every control keeps its place and its [onclick], a
    control that was disabled is still disabled, and the upload area, the
    chosen file, the selected task and the modal are as they were. *)
Theorem X26_poll_never_enables entries p :
  let q := Client.checkVerificationStatus_then matching entries p in
  never_enabled (Client.controls p) (Client.controls q) ∧
  modal_state q = modal_state p.
Proof. apply poll_never_enables. Qed.

Lemma list_ascii_of_string_app (a b : string) :
  String.list_ascii_of_string (a +:+ b) =
  String.list_ascii_of_string a ++ String.list_ascii_of_string b.
Proof. induction a as [|c a IH]; simpl; [done | by rewrite IH]. Qed.

(** Different tasks have different status elements. *)
Lemma status_id_inj t1 t2 : t1 +:+ "Status" = t2 +:+ "Status" → t1 = t2.
Proof.
  intros H. apply (f_equal String.list_ascii_of_string) in H.
  rewrite !list_ascii_of_string_app in H. apply app_inv_tail in H.
  apply (f_equal String.string_of_list_ascii) in H.
  by rewrite !String.string_of_list_ascii_of_string in H.
Qed.

(** A status element that no entry names is left as it is. *)
Lemma poll_untouched entries p (k : string) :
  (∀ t, t ∈ entries.*1 → k ≠ t +:+ "Status") →
  Client.statusElements (Client.checkVerificationStatus_then matching entries p) !! k =
  Client.statusElements p !! k.
Proof.
  revert p. induction entries as [|[t s] entries IH]; intros p Hk; simpl; [done|].
  pose proof (updateTaskStatus_effect t s p) as H.
  destruct (Client.updateTaskStatus matching t s p) as [p1 threw].
  destruct H as (_ & _ & _ & Hse & _).
  assert (Client.statusElements p1 !! k = Client.statusElements p !! k) as Hp1.
  { rewrite Hse. destruct (Client.statusElements p !! (t +:+ "Status")); [|done].
    rewrite lookup_insert_ne; [done|]. intros <-. apply (Hk t); [|done].
    csimpl. by left. }
  destruct threw; [done|]. rewrite IH; [done|].
  intros t' Ht'. apply Hk. csimpl. by right.
Qed.

Lemma updateTaskStatus_keeps_elements t s p (k : string) :
  is_Some (Client.statusElements p !! k) →
  is_Some (Client.statusElements (Client.updateTaskStatus matching t s p).1 !! k).
Proof.
  intros Hk. pose proof (updateTaskStatus_effect t s p) as H.
  destruct (Client.updateTaskStatus matching t s p) as [p1 threw].
  destruct H as (_ & _ & _ & Hse & _). simpl. rewrite Hse.
  destruct (Client.statusElements p !! (t +:+ "Status")); [|done].
  rewrite lookup_insert. by case_decide.
Qed.

Lemma poll_shows_statuses entries p :
  NoDup entries.*1 →
  (∀ t, (t, "verified") ∈ entries → is_Some (matching t)) →
  let q := Client.checkVerificationStatus_then matching entries p in
  (∀ t s, (t, s) ∈ entries →
     is_Some (Client.statusElements p !! (t +:+ "Status")) →
     Client.statusElements q !! (t +:+ "Status") =
       Some (Client.mkStatusElement ("status " +:+ s)
               (Client.lookup_or Client.statusText s s))) ∧
  (∀ k, (∀ t, t ∈ entries.*1 → k ≠ t +:+ "Status") →
     Client.statusElements q !! k = Client.statusElements p !! k).
Proof.
  intros Hnd Hvalid. simpl. split; [|intros k Hk; by apply poll_untouched].
  revert p Hnd Hvalid. induction entries as [|[t0 s0] entries IH];
    intros p Hnd Hvalid t s Hin Hel; [by apply elem_of_nil in Hin|].
  csimpl in Hnd. apply NoDup_cons in Hnd as [Hfresh Hnd]. simpl.
  pose proof (updateTaskStatus_effect t0 s0 p) as H.
  pose proof (updateTaskStatus_keeps_elements t0 s0 p (t +:+ "Status") Hel) as Hkeep.
  destruct (Client.updateTaskStatus matching t0 s0 p) as [p1 threw].
  destruct H as (_ & _ & Hthrew & Hse & _). simpl in Hkeep.
  destruct threw.
  { destruct (Hthrew eq_refl) as [-> Hnone].
    destruct (Hvalid t0) as [? ?]; [by left | congruence]. }
  apply elem_of_cons in Hin as [[= -> ->]|Hin].
  - rewrite poll_untouched.
    + rewrite Hse. destruct Hel as [el ->]. by rewrite lookup_insert_eq.
    + intros t' Ht' ->%status_id_inj. done.
  - apply IH; [done| |done|done]. intros t' Ht'. apply Hvalid. by right.
Qed.

(** X27. After a poll whose answer names each task once and whose
    selectors are all valid, the status element of every task of the
    answer that the page has an element for shows that task's status: the
    class [status <status>] and the label of the status, or the status
    itself when it has no label.  Elements of other tasks are as they
    were. *)
Theorem X27_poll_shows_statuses entries p :
  NoDup entries.*1 →
  (∀ t, (t, "verified") ∈ entries → is_Some (matching t)) →
  let q := Client.checkVerificationStatus_then matching entries p in
  (∀ t s, (t, s) ∈ entries →
     is_Some (Client.statusElements p !! (t +:+ "Status")) →
     Client.statusElements q !! (t +:+ "Status") =
       Some (Client.mkStatusElement ("status " +:+ s)
               (Client.lookup_or Client.statusText s s))) ∧
  (∀ k, (∀ t, t ∈ entries.*1 → k ≠ t +:+ "Status") →
     Client.statusElements q !! k = Client.statusElements p !! k).
Proof. apply poll_shows_statuses. Qed.

(** X28. After such a poll every control that the selector of a task
    matches is disabled, for each task that the answer reports as verified
    and the page has a status element for. *)
Theorem X28_poll_disables_verified entries p t (test : string → bool) :
  (∀ t', (t', "verified") ∈ entries → is_Some (matching t')) →
  (t, "verified") ∈ entries →
  is_Some (Client.statusElements p !! (t +:+ "Status")) →
  matching t = Some test →
  ∀ c, c ∈ Client.controls (Client.checkVerificationStatus_then matching entries p) →
       test (Client.onclick c) = true → Client.disabled c = true.
Proof.
  revert p. induction entries as [|[t0 s0] entries IH];
    intros p Hvalid Hin Hel Hm c Hc Htest; [by apply elem_of_nil in Hin|].
  simpl in Hc.
  pose proof (updateTaskStatus_effect t0 s0 p) as H.
  pose proof (updateTaskStatus_keeps_elements t0 s0 p (t +:+ "Status") Hel) as Hkeep.
  destruct (Client.updateTaskStatus matching t0 s0 p) as [p1 threw].
  destruct H as (_ & _ & Hthrew & _ & Hdis). simpl in Hkeep.
  destruct threw.
  { destruct (Hthrew eq_refl) as [-> Hnone].
    destruct (Hvalid t0) as [? ?]; [by left | congruence]. }
  apply elem_of_cons in Hin as [[= <- <-]|Hin].
  - destruct (poll_never_enables entries p1) as [Hne _].
    unfold never_enabled in Hne.
    apply list_elem_of_lookup in Hc as [i Hi].
    destruct (Forall2_lookup_r _ _ _ _ _ Hne Hi) as (c0 & Hc0 & Ho & Hd).
    apply Hd. apply (Hdis eq_refl Hel test Hm).
    + by apply list_elem_of_lookup_2 in Hc0.
    + by rewrite <- Ho.
  - apply (IH p1); try done. intros t' Ht'. apply Hvalid. by right.
Qed.

End Poll.

Lemma X27_poll_shows_statuses_witness :
  Client.statusElements
    (Client.checkVerificationStatus_then Client.contains sample_statuses sample_page)
    !! "twitterStatus" =
  Some (Client.mkStatusElement "status verified" (Client.Plain "✅ Verified")).
Proof.
  destruct (X27_poll_shows_statuses Client.contains sample_statuses sample_page)
    as [Hshown _].
  - apply (bool_decide_unpack _). by vm_compute.
  - intros t _. unfold Client.contains. eauto.
  - apply (Hshown "twitter" "verified"); [apply list_elem_of_here|].
    vm_compute. eauto.
Defined.

Lemma X28_poll_disables_verified_witness :
  Forall (λ c, Js.includes "twitter" (Client.onclick c) = true → Client.disabled c = true)
    (Client.controls
       (Client.checkVerificationStatus_then Client.contains sample_statuses sample_page)).
Proof.
  apply Forall_forall. intros c Hc Hmatch.
  apply (X28_poll_disables_verified Client.contains sample_statuses sample_page "twitter"
           (λ attribute, negb (String.eqb "twitter" "") && Js.includes "twitter" attribute)).
  - intros t _. unfold Client.contains. eauto.
  - apply list_elem_of_here.
  - vm_compute. eauto.
  - reflexivity.
  - exact Hc.
  - simpl. exact Hmatch.
Defined.

(** The two buttons of the sample page after the poll: the button of the
    verified task is disabled and relabelled, the other is untouched. *)
Example sample_poll_controls :
  Client.controls
    (Client.checkVerificationStatus_then Client.contains sample_statuses sample_page) =
  [ Client.mkControl "openVerificationModal('twitter')" true "Verified" ["verified"];
    Client.mkControl "openVerificationModal('youtube')" false "Verify" [] ].
Proof. reflexivity. Qed.

(** ** A poll from the store to the page *)


